(** * process_opc: per-day netCDF files from the GRIMM csv table

    A shallow embedding of [src/dcmex/process_opc.py].  [main] reads one csv
    table of aerosol counts, drops the rows without readings, splits the rest
    by calendar day and, for each day, fills and finalizes one netCDF file.

    The pandas frame is a header plus rows, float64 readings are
    [spec_float] at binary64, the output directory is a finite map from
    paths to files, and every library call that can raise returns in a small
    state-and-exception monad. *)

From Stdlib Require Import ZArith Lia Ascii String List Sorting.Permutation.
From Stdlib Require Import Floats.SpecFloat.
From stdpp Require Import base option list sorting gmap strings.

#[local] Set Warnings "-clear-no-such-hyp".
Local Open Scope Z_scope.

(** ** float64 readings *)

Module F64.

Definition prec : Z := 53.
Definition emax : Z := 1024.

Definition div (x y : spec_float) : spec_float := SFdiv prec emax x y.

(** The float64 nearest to an integer, as numpy converts a Python int. *)
Definition of_Z (n : Z) : spec_float := binary_normalize prec emax n 0 false.

(** numpy's [isnan], which is what pandas' [isna] is on a float column. *)
Definition is_nan (x : spec_float) : bool :=
  match x with S754_nan => true | _ => false end.

Definition is_zero (x : spec_float) : bool :=
  match x with S754_zero _ => true | _ => false end.

(** The float64 nearest to [n / 10^k]: a decimal literal with [k] digits
    after the point, both operands being exact. *)
Definition of_decimal (n : Z) (k : nat) : spec_float :=
  div (of_Z n) (of_Z (10 ^ Z.of_nat k)).

End F64.

(** ** Calendar dates and times of day *)

(** A pandas timestamp is a count of microseconds since 1970-01-01T00:00:00
    UTC; [None] in a timestamp cell is NaT.  pandas keeps the count in 64
    bits of nanoseconds, which bounds it. *)
Definition timestamp_in_range (t : Z) : Prop :=
  - 2 ^ 63 < t * 1000 < 2 ^ 63.

Record date := Date { year : Z; month : Z; day : Z }.

#[global] Instance date_eq_dec : EqDecision date.
Proof. solve_decision. Defined.

Record datetime := DateTime {
  dt_date : date; hour : Z; minute : Z; second : Z; microsecond : Z }.

Definition us_per_second : Z := 1000000.
Definition seconds_per_day : Z := 86400.

(** Days since the epoch to the proleptic Gregorian date. *)
Definition civil_from_days (z0 : Z) : date :=
  let z := z0 + 719468 in
  let era := z / 146097 in
  let doe := z mod 146097 in
  let yoe := (doe - doe / 1460 + doe / 36524 - doe / 146096) / 365 in
  let doy := doe - (365 * yoe + yoe / 4 - yoe / 100) in
  let mp := (5 * doy + 2) / 153 in
  let d := doy - (153 * mp + 2) / 5 + 1 in
  let m := if mp <? 10 then mp + 3 else mp - 9 in
  let y := yoe + era * 400 in
  Date (if m <=? 2 then y + 1 else y) m d.

(** The date to days since the epoch. *)
Definition days_from_civil (d : date) : Z :=
  let y := if month d <=? 2 then year d - 1 else year d in
  let era := y / 400 in
  let yoe := y mod 400 in
  let mp := if month d <=? 2 then month d + 9 else month d - 3 in
  let doy := (153 * mp + 2) / 5 + day d - 1 in
  let doe := yoe * 365 + yoe / 4 - yoe / 100 + doy in
  era * 146097 + doe - 719468.

Definition unix_seconds (t : Z) : Z := t / us_per_second.

(** [datetime.fromtimestamp(s, timezone.utc)] of a time given in
    microseconds. *)
Definition utc_datetime (t : Z) : datetime :=
  let s := unix_seconds t in
  let sod := s mod seconds_per_day in
  DateTime (civil_from_days (s / seconds_per_day))
           (sod / 3600) (sod mod 3600 / 60) (sod mod 60) (t mod us_per_second).

(** [.dt.date] of one cell: NaT stays NaT. *)
Definition date_of (t : option Z) : option date :=
  (fun t => dt_date (utc_datetime t)) <$> t.

Definition day_of_year (d : date) : Z :=
  days_from_civil d - days_from_civil (Date (year d) 1 1) + 1.

(** ** strftime *)

Definition digit (n : Z) : ascii := ascii_of_nat (48 + Z.to_nat (n mod 10)).

Definition pad2 (n : Z) (rest : string) : string :=
  String (digit (n / 10)) (String (digit n) rest).

Definition pad4 (n : Z) (rest : string) : string :=
  String (digit (n / 1000)) (String (digit (n / 100)) (pad2 n rest)).

(** [strftime('%Y%m%d')] *)
Definition strftime_Ymd (d : date) : string :=
  pad4 (year d) (pad2 (month d) (pad2 (day d) "")).

(** [strftime("%Y-%m-%dT%H:%M:%S")] *)
Definition strftime_iso (x : datetime) : string :=
  pad4 (year (dt_date x)) (String "-" (pad2 (month (dt_date x)) (String "-"
    (pad2 (day (dt_date x)) (String "T" (pad2 (hour x) (String ":"
      (pad2 (minute x) (String ":" (pad2 (second x) "")))))))))).

(** A date of the calendar, with a year of four digits. *)
Definition valid_date (d : date) : Prop :=
  1000 <= year d <= 9999 /\ 1 <= month d <= 12 /\ 1 <= day d <= 31.

Definition is_digit (c : ascii) : bool :=
  let n := Z.of_nat (nat_of_ascii c) in (48 <=? n) && (n <=? 57).

(** The shape [YYYY-MM-DDTHH:MM:SS]: nineteen characters, digits but for
    the two dashes, the [T] and the two colons, and nothing after the
    seconds. *)
Definition iso_shape (s : string) : bool :=
  match list_ascii_of_string s with
  | [y1; y2; y3; y4; s1; m1; m2; s2; d1; d2; s3; h1; h2; s4; n1; n2; s5; c1; c2] =>
      forallb is_digit [y1; y2; y3; y4; m1; m2; d1; d2; h1; h2; n1; n2; c1; c2]
      && bool_decide (s1 = "-"%char) && bool_decide (s2 = "-"%char)
      && bool_decide (s3 = "T"%char)
      && bool_decide (s4 = ":"%char) && bool_decide (s5 = ":"%char)
  | _ => false
  end.


(** ** The frame *)

(** One row of the frame: its index label, the timestamp cell of column 0
    ([None] is NaT) and the reading cells of the other columns (NaN is a
    missing reading).  A cell that pandas read as an integer is taken at its
    float64 value, which is what the division by 1000 works on. *)
Record row := Row {
  index : nat;
  time : option Z;
  readings : list spec_float }.

(** The frame always has its column 0; the size-bin columns follow it. *)
Record frame := Frame {
  time_column : string;
  bin_columns : list string;
  rows : list row }.

Definition columns (df : frame) : list string :=
  time_column df :: bin_columns df.

(** [pd.read_csv(input_file, parse_dates=[0])] on the parsed records: the
    rows get the labels 0, 1, 2, ... *)
Definition read_csv (header0 : string) (header : list string)
    (records : list (option Z * list spec_float)) : frame :=
  Frame header0 header (imap (fun i c => Row i (fst c) (snd c)) records).

(** [df.iloc[:,1:].values] *)
Definition values (df : frame) : list (list spec_float) :=
  readings <$> rows df.

(** *** Loader *)

Definition isna_time (r : row) : bool :=
  match time r with None => true | Some _ => false end.

Definition no_reading (r : row) : bool := forallb F64.is_nan (readings r).

(** [dropna(how='all')] *)
Definition dropna_all (df : frame) : frame :=
  Frame (time_column df) (bin_columns df)
        (List.filter (fun r => negb (isna_time r && no_reading r)) (rows df)).

(** [dropna(subset=df.columns[1:], how='all')] *)
Definition dropna_readings (df : frame) : frame :=
  Frame (time_column df) (bin_columns df)
        (List.filter (fun r => negb (no_reading r)) (rows df)).

Definition loader (input : frame) : frame := dropna_readings (dropna_all input).

(** *** Day partitioner *)

(** [Series.unique()]: the distinct values, in order of first appearance. *)
Fixpoint unique_from {A} `{EqDecision A} (seen l : list A) : list A :=
  match l with
  | [] => []
  | x :: l =>
      if decide (x ∈ seen) then unique_from seen l
      else x :: unique_from (x :: seen) l
  end.

Definition unique {A} `{EqDecision A} (l : list A) : list A := unique_from [] l.

(** [df.iloc[:,0].dt.date] *)
Definition dates (df : frame) : list (option date) :=
  (fun r => date_of (time r)) <$> rows df.

(** One cell of [df.iloc[:,0].dt.date == date]: NaT equals nothing, itself
    included. *)
Definition on_day (d : option date) (r : row) : bool :=
  match d, date_of (time r) with
  | Some d, Some d' => bool_decide (d' = d)
  | _, _ => false
  end.

(** [df[df.iloc[:,0].dt.date == date]] *)
Definition select_day (df : frame) (d : option date) : frame :=
  Frame (time_column df) (bin_columns df) (List.filter (on_day d) (rows df)).

Definition day_groups (df : frame) : list (option date * frame) :=
  (fun d => (d, select_day df d)) <$> unique (dates df).

Definition group_rows (g : option date * frame) : list row := rows (snd g).

(** ** Files and the calls that change them *)

(** What a netCDF variable holds. *)
Inductive value :=
  | Float2d (m : list (list spec_float))
  | Float0d (x : spec_float)
  | Epoch1d (l : list Z)
  | Int1d (l : list Z).

Record nc_file := NcFile {
  dimensions : list (string * nat);
  variables : gmap string (option value);   (* [None]: declared, never written *)
  attributes : gmap string string;
  is_open : bool }.

(** What can go wrong: the Python exceptions of [float], [NaT.strftime],
    an index into an empty list and [os.rename], and the conditions that
    netCDF reports on a dataset. *)
Inductive exn :=
  | ValueError | IndexError | FileNotFoundError
  | AttributeNotFound | VariableNotFound | DatasetClosed.

Inductive outcome (A : Type) :=
  | Ok (a : A)
  | Raise (e : exn).
Arguments Ok {A} a.
Arguments Raise {A} e.

(** The output directory: path to file. *)
Abbreviation files := (gmap string nc_file).

(** A command runs on the directory and leaves it changed also when it
    raises: nothing is rolled back. *)
Definition cmd (A : Type) : Type := files -> files * outcome A.

#[global] Instance cmd_ret : MRet cmd := fun A a fs => (fs, Ok a).
#[global] Instance cmd_bind : MBind cmd := fun A B k c fs =>
  match c fs with
  | (fs', Ok a) => k a fs'
  | (fs', Raise e) => (fs', Raise e)
  end.

Definition raise {A} (e : exn) : cmd A := fun fs => (fs, Raise e).

Definition or_raise {A} (e : exn) (o : option A) : cmd A :=
  match o with Some a => mret a | None => raise e end.

(** [for x in l: body(x)] *)
Fixpoint for_each {A} (l : list A) (body : A -> cmd unit) : cmd unit :=
  match l with
  | [] => mret tt
  | x :: l => body x ≫= fun _ => for_each l body
  end.

(** A method of an open dataset: it changes the one file behind the handle. *)
Definition on_dataset (nc : string) (f : nc_file -> outcome nc_file) : cmd unit :=
  fun fs =>
    match fs !! nc with
    | Some file =>
        if is_open file then
          match f file with
          | Ok file' => (<[nc := file']> fs, Ok tt)
          | Raise e => (fs, Raise e)
          end
        else (fs, Raise DatasetClosed)
    | None => (fs, Raise DatasetClosed)
    end.

(** [Dataset.setncattr] *)
Definition setncattr (nc k v : string) : cmd unit :=
  on_dataset nc (fun f =>
    Ok (NcFile (dimensions f) (variables f) (<[k := v]> (attributes f)) (is_open f))).

(** [Dataset.delncattr]: netCDF reports an attribute that is not there. *)
Definition delncattr (nc k : string) : cmd unit :=
  on_dataset nc (fun f =>
    match attributes f !! k with
    | Some _ =>
        Ok (NcFile (dimensions f) (variables f) (delete k (attributes f)) (is_open f))
    | None => Raise AttributeNotFound
    end).

(** [Dataset.close] *)
Definition close (nc : string) : cmd unit :=
  on_dataset nc (fun f =>
    Ok (NcFile (dimensions f) (variables f) (attributes f) false)).

(** [os.rename]; an existing destination is replaced. *)
Definition os_rename (src dst : string) : cmd unit :=
  fun fs =>
    match fs !! src with
    | Some f => (<[dst := f]> (delete src fs), Ok tt)
    | None => (fs, Raise FileNotFoundError)
    end.

(** *** The template library *)

(** Modelled from the spec: [nant.util.update_variable] writes a named
    variable; the variable has to be one the file declares. *)
Definition update_variable (nc name : string) (v : value) : cmd unit :=
  on_dataset nc (fun f =>
    match variables f !! name with
    | Some _ =>
        Ok (NcFile (dimensions f) (<[name := Some v]> (variables f)) (attributes f)
                   (is_open f))
    | None => Raise VariableNotFound
    end).

(** Modelled from the spec: [nant.util.add_metadata_to_netcdf], on the
    key-value pairs of the side file: each is applied as it stands, in
    order. *)
Definition add_metadata_to_netcdf (nc : string) (metadata : list (string * string))
    : cmd unit :=
  for_each metadata (fun kv => setncattr nc (fst kv) (snd kv)).

(** The merge of the metadata is one [setncattr] per pair, later pairs over
    earlier ones. *)
Definition merged (metadata : list (string * string))
    (a : gmap string string) : gmap string string :=
  foldl (fun a kv => <[fst kv := snd kv]> a) a metadata.

(** A variable is empty when every value of it is missing. *)
Definition all_missing (v : option value) : bool :=
  match v with
  | None => true
  | Some (Float2d m) => forallb (forallb F64.is_nan) m
  | Some (Float0d x) => F64.is_nan x
  | Some (Epoch1d l) | Some (Int1d l) => forallb (fun _ => false) l
  end.

(** Modelled from the spec: [nant.remove_empty_variables.main] removes from
    the file at [path] every variable whose values are entirely missing. *)
Definition remove_empty_variables (path : string) : cmd unit :=
  fun fs =>
    match fs !! path with
    | Some f =>
        (<[path := NcFile (dimensions f)
                     (filter (fun kv => all_missing (snd kv) = false) (variables f))
                     (attributes f) (is_open f)]> fs, Ok tt)
    | None => (fs, Raise FileNotFoundError)
    end.

(** What [nant.util.get_times] returns. *)
Record times := Times {
  unix_times : list Z;
  day_of_years : list Z;
  years : list Z; months : list Z; days : list Z;
  hours : list Z; minutes : list Z; seconds : list Z;
  time_coverage_start_unix : Z;
  time_coverage_end_unix : Z;
  file_date : string }.

(** Modelled from the spec: [nant.util.get_times] is the template library's
    and not part of the sources.  Given the timestamps of one day group it
    returns the per-row epoch times and calendar fields, the epoch times of
    the first and of the last row as the coverage bounds, and the date label
    of the first row.  Epoch times are kept in microseconds.  An empty
    sequence has no first row, and NaT has no fields. *)
Definition get_times (dt_times : list (option Z)) : option times :=
  ts ← mapM id dt_times;
  t0 ← head ts;
  tn ← last ts;
  let dts := utc_datetime <$> ts in
  Some (Times ts
          ((fun x => day_of_year (dt_date x)) <$> dts)
          ((fun x => year (dt_date x)) <$> dts)
          ((fun x => month (dt_date x)) <$> dts)
          ((fun x => day (dt_date x)) <$> dts)
          (hour <$> dts) (minute <$> dts) (second <$> dts)
          t0 tn (strftime_Ymd (dt_date (utc_datetime t0)))).

(** ** The conversion *)

Definition instrument : string := "ncas-opc-1".
Definition product_version : string := "_aerosol-size-distribution_v1.0.nc".

(** [f"{loc}/ncas-opc-1_{platform}_{date}_aerosol-size-distribution_v1.0.nc"] *)
Definition file_name (loc platform label : string) : string :=
  loc +:+ "/" +:+ instrument +:+ "_" +:+ platform +:+ "_" +:+ label
      +:+ product_version.

Definition mobile_name (loc : string) (d : date) : string :=
  file_name loc "mobile" (strftime_Ymd d).

Definition final_name (loc : string) (d : date) : string :=
  file_name loc "kiva-2-lab" (strftime_Ymd d).

Definition attrs_to_delete : list string :=
  ["dma_inner_radius"; "dma_outer_radius"; "dma_length";
   "impactor_orifice_diameter"].

(** The variables that [main] writes. *)
Definition written_names : list string :=
  ["ambient_aerosol_number_per_channel"; "measurement_channel_lower_limit";
   "measurement_channel_upper_limit"; "time"; "day_of_year"; "year"; "month";
   "day"; "hour"; "minute"; "second"; "latitude"; "longitude"].

Definition upper_sentinel : spec_float := F64.of_Z 32.
Definition latitude : spec_float := F64.of_decimal 339913 4.
Definition longitude : spec_float := F64.of_decimal (-1071880) 4.

(** [NaT.strftime] raises; a date is rendered. *)
Definition strftime_date (d : option date) : option string := strftime_Ymd <$> d.

(** [df_day.iloc[:,1:].values/1000] *)
Definition concentration (df_day : frame) : list (list spec_float) :=
  (fun r : list spec_float => (fun x => F64.div x (F64.of_Z 1000)) <$> r)
    <$> values df_day.

Section Conversion.

(** Python's [float] on a string, which numpy's [astype(float)] applies to
    each header; [None] where it raises. *)
Variable parse_float : string -> option spec_float.

(** The variables and the global attributes that the template library
    declares in a new aerosol-size-distribution file. *)
Variable template_variables : list string.
Variable template_attributes : gmap string string.

(** [headers.values.astype(float)] *)
Definition astype_float (headers : list string) : option (list spec_float) :=
  mapM parse_float headers.

(** [np.array([df_day.columns[1:].values.astype(float)]*len(unix_times))] *)
Definition lower_limits (df_day : frame) (n_times : nat)
    : option (list (list spec_float)) :=
  replicate n_times <$> astype_float (drop 1 (columns df_day)).

(** [np.array([np.append(df_day.columns[2:].values.astype(float), 32)]
               *len(unix_times))] *)
Definition upper_limits (df_day : frame) (n_times : nat)
    : option (list (list spec_float)) :=
  (fun l => replicate n_times (l ++ [upper_sentinel]))
    <$> astype_float (drop 2 (columns df_day)).

(** Every template variable, declared and not yet written. *)
Definition declared_variables : gmap string (option value) :=
  list_to_map ((fun v => (v, None)) <$> template_variables).

(** Modelled from the spec: [nant.create_netcdf.main] with
    [return_open=True] creates the file of the instrument and date label
    under the default platform name, with the given dimension lengths and
    the template's variables and attributes, and returns it open. *)
Definition create_netcdf (instr label : string)
    (dimension_lengths : list (string * nat)) (loc : string) : cmd string :=
  fun fs =>
    let path := file_name loc "mobile" label in
    (<[path := NcFile dimension_lengths declared_variables
                 template_attributes true]> fs,
     Ok path).

(** The body of the loop of [main], for one value of [date].  [print(date)]
    writes to the terminal only, and [pd.to_datetime] on the timestamp column
    of [df_day] changes nothing, the column being timestamps already; the
    arguments of [create_netcdf] are evaluated before it is called, so
    [date.strftime] comes after [get_times] and before the file is made. *)
Definition process_day (df : frame) (loc : string)
    (metadata : list (string * string)) (d : option date) : cmd unit :=
  let df_day := select_day df d in
  t ← or_raise IndexError (get_times (time <$> rows df_day));
  label ← or_raise ValueError (strftime_date d);
  nc_file ← create_netcdf instrument label
    [("time", length (unix_times t));
     ("index", (length (columns df_day) - 1)%nat)] loc;
  update_variable nc_file "ambient_aerosol_number_per_channel"
    (Float2d (concentration df_day));;
  lower ← or_raise ValueError (lower_limits df_day (length (unix_times t)));
  upper ← or_raise ValueError (upper_limits df_day (length (unix_times t)));
  update_variable nc_file "measurement_channel_lower_limit" (Float2d lower);;
  update_variable nc_file "measurement_channel_upper_limit" (Float2d upper);;
  update_variable nc_file "time" (Epoch1d (unix_times t));;
  update_variable nc_file "day_of_year" (Int1d (day_of_years t));;
  update_variable nc_file "year" (Int1d (years t));;
  update_variable nc_file "month" (Int1d (months t));;
  update_variable nc_file "day" (Int1d (days t));;
  update_variable nc_file "hour" (Int1d (hours t));;
  update_variable nc_file "minute" (Int1d (minutes t));;
  update_variable nc_file "second" (Int1d (seconds t));;
  update_variable nc_file "latitude" (Float0d latitude);;
  update_variable nc_file "longitude" (Float0d longitude);;
  setncattr nc_file "geospatial_bounds" "33.9913N, -107.1880E";;
  setncattr nc_file "time_coverage_start"
    (strftime_iso (utc_datetime (time_coverage_start_unix t)));;
  setncattr nc_file "time_coverage_end"
    (strftime_iso (utc_datetime (time_coverage_end_unix t)));;
  add_metadata_to_netcdf nc_file metadata;;
  for_each attrs_to_delete (fun attr => delncattr nc_file attr);;
  close nc_file;;
  remove_empty_variables (file_name loc "mobile" label);;
  os_rename (file_name loc "mobile" label) (file_name loc "kiva-2-lab" label).

(** The body of the loop in three stretches, to speak of the directory at
    the points between them: up to the merge of the metadata, the deletion
    of the attributes, and the steps from [close] on.
    [process_day_stretches] below shows that [process_day] is their
    sequence. *)
Definition populate (df : frame) (loc : string)
    (metadata : list (string * string)) (d : option date)
    : cmd (string * string) :=
  let df_day := select_day df d in
  t ← or_raise IndexError (get_times (time <$> rows df_day));
  label ← or_raise ValueError (strftime_date d);
  nc_file ← create_netcdf instrument label
    [("time", length (unix_times t));
     ("index", (length (columns df_day) - 1)%nat)] loc;
  update_variable nc_file "ambient_aerosol_number_per_channel"
    (Float2d (concentration df_day));;
  lower ← or_raise ValueError (lower_limits df_day (length (unix_times t)));
  upper ← or_raise ValueError (upper_limits df_day (length (unix_times t)));
  update_variable nc_file "measurement_channel_lower_limit" (Float2d lower);;
  update_variable nc_file "measurement_channel_upper_limit" (Float2d upper);;
  update_variable nc_file "time" (Epoch1d (unix_times t));;
  update_variable nc_file "day_of_year" (Int1d (day_of_years t));;
  update_variable nc_file "year" (Int1d (years t));;
  update_variable nc_file "month" (Int1d (months t));;
  update_variable nc_file "day" (Int1d (days t));;
  update_variable nc_file "hour" (Int1d (hours t));;
  update_variable nc_file "minute" (Int1d (minutes t));;
  update_variable nc_file "second" (Int1d (seconds t));;
  update_variable nc_file "latitude" (Float0d latitude);;
  update_variable nc_file "longitude" (Float0d longitude);;
  setncattr nc_file "geospatial_bounds" "33.9913N, -107.1880E";;
  setncattr nc_file "time_coverage_start"
    (strftime_iso (utc_datetime (time_coverage_start_unix t)));;
  setncattr nc_file "time_coverage_end"
    (strftime_iso (utc_datetime (time_coverage_end_unix t)));;
  add_metadata_to_netcdf nc_file metadata;;
  mret (nc_file, label).

Definition delete_unneeded (nc_file : string) : cmd unit :=
  for_each attrs_to_delete (fun attr => delncattr nc_file attr).

Definition finalize (loc nc_file label : string) : cmd unit :=
  close nc_file;;
  remove_empty_variables (file_name loc "mobile" label);;
  os_rename (file_name loc "mobile" label) (file_name loc "kiva-2-lab" label).

(** *** The file of a day, described *)

Definition day_dimensions (df_day : frame) (t : times) : list (string * nat) :=
  [("time", length (unix_times t));
   ("index", (length (columns df_day) - 1)%nat)].

(** The variables of the day's file once all thirteen are written. *)
Definition written_variables (df_day : frame) (t : times)
    (lower upper : list (list spec_float)) : gmap string (option value) :=
  <["longitude" := Some (Float0d longitude)]>
  (<["latitude" := Some (Float0d latitude)]>
  (<["second" := Some (Int1d (seconds t))]>
  (<["minute" := Some (Int1d (minutes t))]>
  (<["hour" := Some (Int1d (hours t))]>
  (<["day" := Some (Int1d (days t))]>
  (<["month" := Some (Int1d (months t))]>
  (<["year" := Some (Int1d (years t))]>
  (<["day_of_year" := Some (Int1d (day_of_years t))]>
  (<["time" := Some (Epoch1d (unix_times t))]>
  (<["measurement_channel_upper_limit" := Some (Float2d upper)]>
  (<["measurement_channel_lower_limit" := Some (Float2d lower)]>
  (<["ambient_aerosol_number_per_channel" :=
       Some (Float2d (concentration df_day))]>
     declared_variables)))))))))))).

(** The attributes of the day's file after the merge of the metadata. *)
Definition merged_attributes (t : times) (metadata : list (string * string))
    : gmap string string :=
  merged metadata
    (<["time_coverage_end" :=
         strftime_iso (utc_datetime (time_coverage_end_unix t))]>
    (<["time_coverage_start" :=
         strftime_iso (utc_datetime (time_coverage_start_unix t))]>
    (<["geospatial_bounds" := "33.9913N, -107.1880E"]> template_attributes))).

Definition populated_file (df_day : frame) (t : times)
    (lower upper : list (list spec_float)) (metadata : list (string * string))
    : nc_file :=
  NcFile (day_dimensions df_day t) (written_variables df_day t lower upper)
         (merged_attributes t metadata) true.

Definition without_unneeded (a : gmap string string) : gmap string string :=
  delete "impactor_orifice_diameter"
    (delete "dma_length" (delete "dma_outer_radius" (delete "dma_inner_radius" a))).

(** The day's file as [process_day] leaves it. *)
Definition day_file (df_day : frame) (t : times)
    (lower upper : list (list spec_float)) (metadata : list (string * string))
    : nc_file :=
  NcFile (day_dimensions df_day t)
         (filter (fun kv => all_missing (snd kv) = false)
                 (written_variables df_day t lower upper))
         (without_unneeded (merged_attributes t metadata)) false.

(** What a day group yields on the way to its file. *)
Record day_data (df : frame) (d : option date) (day : date) (t : times)
    (lower upper : list (list spec_float)) : Prop := DayData {
  day_date : d = Some day;
  day_times : get_times (time <$> rows (select_day df d)) = Some t;
  day_lower :
    lower_limits (select_day df d) (length (unix_times t))
    = Some lower;
  day_upper :
    upper_limits (select_day df d) (length (unix_times t))
    = Some upper }.

(** A file of the directory after the loop was there before it, or is
    the finished file of one of the days. *)
Definition produced (df : frame) (loc : string)
    (metadata : list (string * string)) (days : list date)
    (p : string) (f : nc_file) : Prop :=
  exists day t lower upper,
    day ∈ days
    /\ p = final_name loc day
    /\ day_data df (Some day) day t lower upper
    /\ Forall (fun a => is_Some (merged_attributes t metadata !! a))
              attrs_to_delete
    /\ f = day_file (select_day df (Some day)) t lower upper metadata.

(** [main], from the parsed csv table on. *)
Definition main (input : frame) (loc : string)
    (metadata : list (string * string)) : cmd unit :=
  let df := loader input in
  for_each (unique (dates df)) (process_day df loc metadata).

End Conversion.

(** ** A run on a small table *)

(** A reader of plain decimals such as 0.3 or 12, enough to run [main] on
    example headers: the digits as an integer over the power of ten of the
    places after the point, rounded once. *)
Fixpoint decimal_digits (s : string) (acc : Z) (places : option nat)
    : option (Z * nat) :=
  match s with
  | EmptyString => Some (acc, default 0%nat places)
  | String c s =>
      let n := Z.of_nat (nat_of_ascii c) in
      if (48 <=? n) && (n <=? 57) then
        decimal_digits s (10 * acc + (n - 48)) (S <$> places)
      else if bool_decide (c = "."%char) then
        match places with
        | None => decimal_digits s acc (Some 0%nat)
        | Some _ => None
        end
      else None
  end.

Definition decimal_float (s : string) : option spec_float :=
  match s with
  | EmptyString => None
  | _ => (fun p => F64.of_decimal (fst p) (snd p)) <$> decimal_digits s 0 None
  end.

Module Example.

Definition template_variables : list string :=
  ["ambient_aerosol_number_per_channel"; "measurement_channel_lower_limit";
   "measurement_channel_upper_limit"; "time"; "day_of_year"; "year"; "month";
   "day"; "hour"; "minute"; "second"; "latitude"; "longitude";
   "qc_flag"].

Definition template_attributes : gmap string string :=
  list_to_map
    [("Conventions", "CF-1.6, NCAS-AMF-2.0.0"); ("platform", "mobile");
     ("dma_inner_radius", ""); ("dma_outer_radius", ""); ("dma_length", "");
     ("impactor_orifice_diameter", "")].

Definition metadata : list (string * string) :=
  [("platform", "kiva-2-lab"); ("creator_name", "A. Person")].

(* 2023-06-01T00:00:10, 2023-06-01T00:00:20, 2023-06-02T00:00:00 *)
Definition input : frame :=
  read_csv "Datetime" ["0.3"; "0.5"; "1.0"]
    [(Some 1685577610000000, [F64.of_Z 1500; S754_nan; F64.of_Z 3]);
     (None, [S754_nan; S754_nan; S754_nan]);
     (Some 1685577620000000, [F64.of_Z 7; F64.of_Z 8; F64.of_Z 9]);
     (Some 1685664000000000, [S754_nan; F64.of_Z 1; S754_nan]);
     (Some 1685664005000000, [S754_nan; S754_nan; S754_nan])].

Definition run := main decimal_float template_variables template_attributes.

Definition run_day :=
  process_day decimal_float template_variables template_attributes.

Definition fill_day :=
  populate decimal_float template_variables template_attributes.

Definition day1 : option date := Some (Date 2023 6 1).

(** The directory after the first day of [input], run on its own. *)
Definition day1_files : files :=
  Eval vm_compute in fst (run_day (loader input) "out" metadata day1 ∅).

(** The same day with its two rows in descending time. *)
Definition descending : frame :=
  read_csv "Datetime" ["0.3"; "0.5"; "1.0"]
    [(Some 1685577620000000, [F64.of_Z 7; F64.of_Z 8; F64.of_Z 9]);
     (Some 1685577610000000, [F64.of_Z 1500; S754_nan; F64.of_Z 3])].

(** A row with a reading and no timestamp, ahead of a dated row. *)
Definition untimed_first : frame :=
  read_csv "Datetime" ["0.3"]
    [(None, [F64.of_Z 5]);
     (Some 1685577610000000, [F64.of_Z 7])].

(** A template that lacks [dma_length]. *)
Definition short_attributes : gmap string string :=
  delete "dma_length" template_attributes.

(** The directory once the first day is filled from the short template. *)
Definition short_filled : files :=
  Eval vm_compute in
    fst (populate decimal_float template_variables short_attributes
           (loader input) "out" metadata day1 ∅).

Definition day1_name : string :=
  "out/ncas-opc-1_kiva-2-lab_20230601_aerosol-size-distribution_v1.0.nc".

Definition day1_first_name : string :=
  "out/ncas-opc-1_mobile_20230601_aerosol-size-distribution_v1.0.nc".

(** An attribute of the file at [path], if both are there. *)
Definition attribute_at (fs : files) (path k : string) : option string :=
  fs !! path ≫= fun f => attributes f !! k.

End Example.

(** A table whose only row has a reading and no timestamp. *)
Definition untimed_input : frame :=
  read_csv "Datetime" ["0.3"] [(None, [F64.of_Z 5])].

(** ** What the further properties speak of *)

(** The microseconds of a day. *)
Definition us_per_day : Z := 86400000000.


(** What a day that goes through does to the directory: it puts its file
    under the final name and leaves nothing under the first name. *)
Definition apply_day (s : string * string * nc_file) (fs : files) : files :=
  <[fst (fst s) := snd s]> (delete (snd (fst s)) fs).

Fixpoint apply_days (steps : list (string * string * nc_file)) (fs : files)
    : files :=
  match steps with
  | [] => fs
  | s :: steps => apply_days steps (apply_day s fs)
  end.

(** What is under the path [p] after such days, given what was there. *)
Fixpoint path_after (steps : list (string * string * nc_file)) (p : string)
    (o : option nc_file) : option nc_file :=
  match steps with
  | [] => o
  | s :: steps =>
      path_after steps p
        (if decide (p = fst (fst s)) then Some (snd s)
         else if decide (p = snd (fst s)) then None else o)
  end.

(** A table whose only row has a timestamp and no reading. *)
Definition blank_input : frame :=
  read_csv "Datetime" ["0.3"] [(Some 1685577610000000, [S754_nan])].

(** A table with a size-bin header that is no number. *)
Definition bad_header_input : frame :=
  read_csv "Datetime" ["0.3"; "x"]
    [(Some 1685577610000000, [F64.of_Z 1; F64.of_Z 2])].

(** The directory after the run on [Example.input]. *)
Definition run_files : files :=
  Eval vm_compute in
    fst (main decimal_float Example.template_variables
           Example.template_attributes Example.input "out" Example.metadata ∅).


(** * Properties *)

(** ** Evaluation on small inputs *)

Example date_20230601 :
  date_of (Some 1685620800123456) = Some (Date 2023 6 1).
Proof. reflexivity. Qed.

Example iso_20230601 :
  strftime_iso (utc_datetime 1685620800123456) = "2023-06-01T12:00:00".
Proof. reflexivity. Qed.

Example f1000 : F64.of_Z 1000 = S754_finite false 8796093022208000 (-43).
Proof. reflexivity. Qed.

(** ** Lists *)

Section Lists.
Context {A : Type} `{EqDecision A}.

Lemma elem_of_unique_from (seen l : list A) (x : A) :
  x ∈ unique_from seen l <-> x ∈ l /\ x ∉ seen.
Proof.
  revert seen; induction l as [|y l IH]; intros seen; simpl.
  - split; [intros H; inversion H | intros [H _]; inversion H].
  - destruct (decide (y ∈ seen)) as [Hy|Hy].
    + rewrite IH, elem_of_cons. split; [tauto|].
      intros [[->|Hx] Hn]; [contradiction | tauto].
    + rewrite elem_of_cons, IH, !elem_of_cons.
      destruct (decide (x = y)) as [->|Hne]; [tauto|]. tauto.
Qed.

Lemma NoDup_unique_from (seen l : list A) : NoDup (unique_from seen l).
Proof.
  revert seen; induction l as [|y l IH]; intros seen; simpl.
  - constructor.
  - destruct (decide (y ∈ seen)); [apply IH|].
    constructor; [|apply IH].
    rewrite elem_of_unique_from, elem_of_cons. tauto.
Qed.

Lemma elem_of_unique (l : list A) (x : A) : x ∈ unique l <-> x ∈ l.
Proof.
  unfold unique. rewrite elem_of_unique_from.
  split; [tauto|]. intros H; split; [done|]. intros H'; inversion H'.
Qed.

Lemma NoDup_unique (l : list A) : NoDup (unique l).
Proof. apply NoDup_unique_from. Qed.

Lemma elem_of_bfilter (p : A -> bool) (l : list A) (x : A) :
  x ∈ List.filter p l <-> x ∈ l /\ p x = true.
Proof. rewrite !list_elem_of_In. apply filter_In. Qed.

Lemma bfilter_sublist (p : A -> bool) (l : list A) :
  sublist (List.filter p l) l.
Proof.
  induction l as [|x l IH]; simpl; [constructor|].
  destruct (p x); by constructor.
Qed.

End Lists.

(** Filtering a list once per key, for distinct keys that cover the list,
    deals every element to exactly one of the filters. *)
Lemma filter_by_key_Permutation {A K} (sel : K -> A -> bool) (key : A -> K)
    (keys : list K) (l : list A) :
  NoDup keys ->
  (forall k x, k ∈ keys -> x ∈ l -> sel k x = true <-> key x = k) ->
  (forall x, x ∈ l -> key x ∈ keys) ->
  l ≡ₚ concat ((fun k => List.filter (sel k) l) <$> keys).
Proof.
  intros Hnd. induction l as [|x l IH]; intros Hsel Hcov.
  - clear. induction keys as [|k keys IHk]; simpl; done.
  - assert (Hx : key x ∈ keys) by (apply Hcov; left).
    apply list_elem_of_split in Hx as (k1 & k2 & Hk).
    assert (IH' : l ≡ₚ concat ((fun k => List.filter (sel k) l) <$> keys)).
    { apply IH.
      - intros k y Hkin Hy. apply Hsel; [done | by right].
      - intros y Hy. apply Hcov. by right. }
    clear IH. subst keys.
    apply NoDup_app in Hnd as (Hn1 & Hn12 & Hn2).
    apply NoDup_cons in Hn2 as [Hn2 Hn3].
    assert (Hrest : forall ks : list K,
              (forall k, k ∈ ks -> k ∈ k1 ++ key x :: k2 /\ k ≠ key x) ->
              (fun k => List.filter (sel k) (x :: l)) <$> ks
              = (fun k => List.filter (sel k) l) <$> ks).
    { intros ks Hks. apply list_fmap_ext. intros i k Hik. simpl.
      destruct (Hks k) as [Hin Hne]; [by eapply list_elem_of_lookup_2|].
      destruct (sel k x) eqn:E; [|done].
      apply Hsel in E; [congruence | done | left]. }
    assert (E : sel (key x) x = true).
    { apply Hsel; [rewrite elem_of_app, elem_of_cons; tauto | left | done]. }
    rewrite fmap_app, fmap_cons, concat_app, concat_cons in IH' |- *.
    rewrite !Hrest.
    + simpl. rewrite E. simpl. rewrite <- Permutation_middle.
      constructor. exact IH'.
    + intros k Hkin. split; [rewrite elem_of_app, elem_of_cons; tauto|].
      by intros ->.
    + intros k Hkin. split; [rewrite elem_of_app; tauto|].
      intros ->. apply Hn12 in Hkin. apply Hkin. left.
Qed.

(** ** Loader *)

Lemma no_reading_false (r : row) :
  no_reading r = false <-> exists x, x ∈ readings r /\ F64.is_nan x = false.
Proof.
  unfold no_reading. induction (readings r) as [|y l IH]; simpl.
  - split; [done|]. intros (x & Hx & _). inversion Hx.
  - rewrite andb_false_iff, IH. split.
    + intros [E|(x & Hx & E)]; [exists y | exists x];
        (split; [rewrite elem_of_cons; tauto | done]).
    + intros (x & Hx & E). apply elem_of_cons in Hx as [->|Hx]; eauto.
Qed.

Lemma elem_of_dropna_all (input : frame) (r : row) :
  r ∈ rows (dropna_all input)
  <-> r ∈ rows input /\ ~ (time r = None /\ no_reading r = true).
Proof.
  unfold dropna_all; simpl. rewrite elem_of_bfilter.
  unfold isna_time. destruct (time r), (no_reading r); simpl; intuition congruence.
Qed.

Lemma elem_of_dropna_readings (df : frame) (r : row) :
  r ∈ rows (dropna_readings df) <-> r ∈ rows df /\ no_reading r = false.
Proof.
  unfold dropna_readings; simpl. rewrite elem_of_bfilter.
  destruct (no_reading r); simpl; intuition congruence.
Qed.

Lemma elem_of_loader (input : frame) (r : row) :
  r ∈ rows (loader input) <-> r ∈ rows input /\ no_reading r = false.
Proof.
  unfold loader. rewrite elem_of_dropna_readings, elem_of_dropna_all.
  split; [tauto|]. intros [H E]. rewrite E. intuition congruence.
Qed.

Lemma loader_columns (input : frame) : columns (loader input) = columns input.
Proof. reflexivity. Qed.

(** C3.  The loader is two drop passes, in this order: the first keeps the
    rows that are not absent in every cell, timestamp included; the second
    keeps, of those, the rows that are not absent in every reading cell.
    Both keep the order of the rows and the columns.  A row with a timestamp
    and at least one reading that is not NaN survives both passes, whatever
    its other readings. *)
Theorem loader_drop_passes (input : frame) :
  loader input = dropna_readings (dropna_all input)
  /\ (forall r, r ∈ rows (dropna_all input)
        <-> r ∈ rows input /\ ~ (time r = None /\ no_reading r = true))
  /\ (forall r, r ∈ rows (loader input)
        <-> r ∈ rows (dropna_all input) /\ no_reading r = false)
  /\ sublist (rows (dropna_all input)) (rows input)
  /\ sublist (rows (loader input)) (rows (dropna_all input))
  /\ columns (loader input) = columns input
  /\ (forall r x, r ∈ rows input -> is_Some (time r) ->
        x ∈ readings r -> F64.is_nan x = false -> r ∈ rows (loader input)).
Proof.
  split; [reflexivity|].
  split; [apply elem_of_dropna_all|].
  split; [intros r; apply elem_of_dropna_readings|].
  split; [apply bfilter_sublist|].
  split; [apply bfilter_sublist|].
  split; [reflexivity|].
  intros r x Hr _ Hx E. apply elem_of_loader. split; [done|].
  apply no_reading_false. eauto.
Qed.

(** C10.  A row without a timestamp that has at least one reading is kept by
    the loader, and a row that the loader drops has no reading at all: the
    timestamp cell never decides. *)
Theorem loader_keeps_untimed_rows (input : frame) (r : row) :
  r ∈ rows input ->
  (time r = None -> (exists x, x ∈ readings r /\ F64.is_nan x = false) ->
     r ∈ rows (loader input))
  /\ (r ∉ rows (loader input) -> no_reading r = true).
Proof.
  intros Hr. split.
  - intros _ Hx. apply elem_of_loader. split; [done|]. by apply no_reading_false.
  - intros Hn. destruct (no_reading r) eqn:E; [done|].
    exfalso. apply Hn. by apply elem_of_loader.
Qed.

(** ** Day partitioner *)


Lemma on_day_true (d : option date) (r : row) :
  on_day d r = true <-> is_Some d /\ date_of (time r) = d.
Proof.
  unfold on_day. destruct d as [d|], (date_of (time r)) as [d'|]; simpl;
    rewrite ?bool_decide_eq_true; split;
    try (intros [[? ?] ?]); try congruence; try discriminate.
  - intros ->. eauto.
Qed.

Lemma day_groups_keys (df : frame) : fst <$> day_groups df = unique (dates df).
Proof.
  unfold day_groups. rewrite <- list_fmap_compose.
  rewrite <- (list_fmap_id (unique (dates df))) at 2. by apply list_fmap_ext.
Qed.

Lemma day_groups_rows (df : frame) :
  group_rows <$> day_groups df
  = (fun d => List.filter (on_day d) (rows df)) <$> unique (dates df).
Proof. unfold day_groups. rewrite <- list_fmap_compose. by apply list_fmap_ext. Qed.

Lemma elem_of_day_groups (df : frame) (g : option date * frame) :
  g ∈ day_groups df
  <-> fst g ∈ dates df /\ snd g = select_day df (fst g).
Proof.
  unfold day_groups. rewrite list_elem_of_fmap. split.
  - intros (d & -> & Hd). simpl. rewrite elem_of_unique in Hd. by split.
  - intros [Hd E]. exists (fst g). rewrite <- E. destruct g; simpl.
    split; [done|]. by rewrite elem_of_unique.
Qed.

(** C4, as amended.  When every retained row has a timestamp, the groups of
    the day partitioner are keyed by the distinct calendar dates of the rows,
    each key once; a group holds exactly the rows of its date, in the order
    of the table and under the columns of the table; the rows of all groups
    together are a rearrangement of the rows of the table; and no row is in
    two groups. *)
Theorem day_groups_partition (df : frame) :
  (forall r, r ∈ rows df -> is_Some (time r)) ->
  NoDup (fst <$> day_groups df)
  /\ (forall d, d ∈ (fst <$> day_groups df)
        <-> exists r, r ∈ rows df /\ date_of (time r) = d)
  /\ (forall g r, g ∈ day_groups df ->
        (r ∈ group_rows g <-> r ∈ rows df /\ date_of (time r) = fst g))
  /\ (forall g, g ∈ day_groups df ->
        columns (snd g) = columns df /\ sublist (group_rows g) (rows df))
  /\ rows df ≡ₚ concat (group_rows <$> day_groups df)
  /\ (forall i j gi gj r, day_groups df !! i = Some gi ->
        day_groups df !! j = Some gj -> i ≠ j ->
        r ∈ group_rows gi -> r ∉ group_rows gj).
Proof.
  intros Htimes.
  assert (Hkeys : forall d, d ∈ unique (dates df) -> is_Some d).
  { intros d Hd. rewrite elem_of_unique in Hd.
    apply list_elem_of_fmap in Hd as (r & -> & Hr).
    destruct (Htimes r Hr) as [t ->]. simpl. eauto. }
  assert (Hmem : forall g r, g ∈ day_groups df ->
            (r ∈ group_rows g <-> r ∈ rows df /\ date_of (time r) = fst g)).
  { intros g r Hg. apply elem_of_day_groups in Hg as [Hd E].
    unfold group_rows. rewrite E. simpl. rewrite elem_of_bfilter, on_day_true.
    split; [tauto|]. intros [Hr Hd']. split; [done|]. split; [|done].
    apply Hkeys. by rewrite elem_of_unique. }
  rewrite day_groups_keys.
  split; [apply NoDup_unique|].
  split.
  { intros d. rewrite elem_of_unique. unfold dates. rewrite list_elem_of_fmap.
    split; intros (r & H1 & H2); exists r; auto. }
  split; [exact Hmem|].
  split.
  { intros g Hg. apply elem_of_day_groups in Hg as [_ E].
    unfold group_rows. rewrite E. split; [reflexivity | apply bfilter_sublist]. }
  split.
  { rewrite day_groups_rows.
    apply (filter_by_key_Permutation on_day (fun r => date_of (time r))).
    - apply NoDup_unique.
    - intros k r Hk Hr. rewrite on_day_true. split; [tauto|].
      intros E. split; [by apply Hkeys | done].
    - intros r Hr. rewrite elem_of_unique. unfold dates.
      apply list_elem_of_fmap. eauto. }
  intros i j gi gj r Hi Hj Hne Hri Hrj.
  apply Hmem in Hri as [_ Ei]; [|by apply list_elem_of_lookup; exists i].
  apply Hmem in Hrj as [_ Ej]; [|by apply list_elem_of_lookup; exists j].
  apply Hne. eapply NoDup_lookup; [apply (NoDup_unique (dates df))| |].
  - rewrite <- day_groups_keys, list_lookup_fmap, Hi. simpl. by rewrite <- Ei.
  - rewrite <- day_groups_keys, list_lookup_fmap, Hj. simpl. by rewrite <- Ej.
Qed.


(** C4, as stated, fails: the row of [untimed_input] is retained by the
    loader and is in no day group. *)
Lemma day_groups_lose_untimed_row :
  rows (loader untimed_input) = [Row 0 None [F64.of_Z 5]]
  /\ group_rows <$> day_groups (loader untimed_input) = [[]]
  /\ ~ rows (loader untimed_input)
       ≡ₚ concat (group_rows <$> day_groups (loader untimed_input)).
Proof.
  split; [reflexivity|]. split; [reflexivity|].
  intros H. apply Permutation_length in H. discriminate H.
Qed.

(** ** Channel mapper *)

Section Channels.
Variable parse_float : string -> option spec_float.

Lemma astype_float_drop (headers : list string) (xs : list spec_float) (k : nat) :
  astype_float parse_float headers = Some xs ->
  astype_float parse_float (drop k headers) = Some (drop k xs).
Proof.
  unfold astype_float. rewrite !mapM_Some. apply Forall2_drop.
Qed.

Lemma astype_float_lookup (headers : list string) (xs : list spec_float) (i : nat) :
  astype_float parse_float headers = Some xs ->
  xs !! i = headers !! i ≫= parse_float.
Proof.
  unfold astype_float. rewrite mapM_Some. intros H.
  destruct (headers !! i) as [h|] eqn:Eh; simpl.
  - destruct (Forall2_lookup_l _ _ _ _ _ H Eh) as (x & -> & ->). done.
  - apply lookup_ge_None in Eh. apply lookup_ge_None.
    by rewrite <- (Forall2_length _ _ _ H).
Qed.

Lemma upper_limits_of_lower (df_day : frame) (lows : list spec_float) (n_times : nat) :
  astype_float parse_float (bin_columns df_day) = Some lows ->
  upper_limits parse_float df_day n_times
  = Some (replicate n_times (drop 1 lows ++ [upper_sentinel])).
Proof.
  intros H. unfold upper_limits, columns. simpl.
  change (bin_columns df_day) with (drop 0 (bin_columns df_day)) at 1.
  rewrite drop_drop. simpl.
  by rewrite (astype_float_drop _ _ 1 H).
Qed.

End Channels.

(** The bounds of a group with at least one size-bin column whose headers
    all read as floats. *)
Lemma bounds_of_headers (parse_float : string -> option spec_float)
    (df_day : frame) (n_times : nat) :
  bin_columns df_day ≠ [] ->
  Forall (fun h => is_Some (parse_float h)) (bin_columns df_day) ->
  exists lows ups : list spec_float,
    lower_limits parse_float df_day n_times = Some (replicate n_times lows)
    /\ upper_limits parse_float df_day n_times = Some (replicate n_times ups)
    /\ (length (columns df_day) - 1)%nat = length (bin_columns df_day)
    /\ length lows = length (bin_columns df_day)
    /\ length ups = length (bin_columns df_day)
    /\ (forall i, lows !! i = columns df_day !! (i + 1)%nat ≫= parse_float)
    /\ (forall i, (i + 1 < length (bin_columns df_day))%nat ->
          ups !! i = lows !! (i + 1)%nat
          /\ ups !! i = columns df_day !! (i + 2)%nat ≫= parse_float)
    /\ last ups = Some upper_sentinel
    /\ upper_sentinel = S754_finite false 4503599627370496 (-47).
Proof.
  intros Hn Hparse.
  destruct (mapM_is_Some_2 parse_float (bin_columns df_day)) as [lows Hl].
  { eapply Forall_impl; [exact Hparse|]. done. }
  assert (Hlen : length lows = length (bin_columns df_day)).
  { apply mapM_Some in Hl. symmetry. by eapply Forall2_length. }
  assert (Hlook : forall i, lows !! i = columns df_day !! (i + 1)%nat ≫= parse_float).
  { intros i. rewrite (astype_float_lookup parse_float _ _ i Hl).
    unfold columns. by replace (i + 1)%nat with (S i) by lia. }
  exists lows, (drop 1 lows ++ [upper_sentinel]).
  split. { unfold lower_limits, columns. simpl. rewrite drop_0.
           unfold astype_float. by rewrite Hl. }
  split. { by apply upper_limits_of_lower. }
  split. { unfold columns. simpl. lia. }
  split; [done|].
  split. { rewrite length_app, length_drop. simpl.
           destruct (bin_columns df_day); [done|]. simpl in *. lia. }
  split; [done|].
  split.
  { intros i Hi.
    assert (E : (drop 1 lows ++ [upper_sentinel]) !! i = lows !! (i + 1)%nat).
    { rewrite lookup_app_l by (rewrite length_drop; lia).
      rewrite lookup_drop. f_equal. lia. }
    split; [done|]. rewrite E, Hlook.
    by replace (i + 1 + 1)%nat with (i + 2)%nat by lia. }
  split; [apply last_snoc | reflexivity].
Qed.

(** ** Unit conversion *)

Lemma div_nan (y : spec_float) : F64.div S754_nan y = S754_nan.
Proof. reflexivity. Qed.

(** Rounding a quotient of two finite floats never gives NaN. *)
Section Rounding.
Variables prec emax : Z.

Lemma shr_1_nonneg mrs : 0 <= shr_m mrs -> 0 <= shr_m (shr_1 mrs).
Proof. destruct mrs as [[|[p|p|]|p] r s]; simpl; lia. Qed.

Lemma iter_pos_shr_1_nonneg p mrs :
  0 <= shr_m mrs -> 0 <= shr_m (SpecFloat.iter_pos shr_1 p mrs).
Proof.
  revert mrs. induction p as [p IH|p IH|]; intros mrs H; simpl.
  - apply IH, IH. by apply shr_1_nonneg.
  - by apply IH, IH.
  - by apply shr_1_nonneg.
Qed.

Lemma shr_fexp_nonneg m e l :
  0 <= m -> 0 <= shr_m (fst (shr_fexp prec emax m e l)).
Proof.
  intros H. unfold shr_fexp, shr.
  assert (H0 : 0 <= shr_m (shr_record_of_loc m l)) by (destruct l as [|[]]; exact H).
  destruct (_ - e); simpl; auto using iter_pos_shr_1_nonneg.
Qed.

Lemma round_nearest_even_nonneg m l : 0 <= m -> 0 <= round_nearest_even m l.
Proof. destruct l as [|[]]; simpl; try destruct (Z.even m); lia. Qed.

Lemma binary_round_aux_not_nan s m e l :
  0 <= m -> binary_round_aux prec emax s m e l <> S754_nan.
Proof.
  intros H. unfold binary_round_aux.
  pose proof (shr_fexp_nonneg m e l H) as H1.
  destruct (shr_fexp prec emax m e l) as [mrs' e']. simpl in H1.
  pose proof (shr_fexp_nonneg _ e' loc_Exact
                (round_nearest_even_nonneg _ (loc_of_shr_record mrs') H1)) as H2.
  destruct (shr_fexp prec emax _ e' loc_Exact) as [mrs'' e'']. simpl in H2.
  destruct (shr_m mrs''); [discriminate | | lia].
  destruct (_ <=? _); discriminate.
Qed.

Lemma SFdiv_finite_not_nan x s m e :
  x <> S754_nan -> SFdiv prec emax x (S754_finite s m e) <> S754_nan.
Proof.
  intros Hx. destruct x as [sx|sx| |sx mx ex]; simpl; try discriminate; [done|].
  unfold SFdiv_core_binary.
  set (m' := match _ - _ with Z0 => _ | Zpos _ => _ | Zneg _ => _ end).
  assert (Hm : 0 <= m').
  { subst m'. destruct (_ - _); try lia. apply Z.shiftl_nonneg. lia. }
  clearbody m'.
  pose proof (Z.div_pos m' (Zpos m) Hm eq_refl) as Hq.
  unfold Z.div in Hq.
  destruct (Z.div_eucl m' (Z.pos m)) as [q r]. simpl in Hq.
  by apply binary_round_aux_not_nan.
Qed.
End Rounding.

Lemma div_1000_not_nan (x : spec_float) :
  F64.is_nan x = false -> F64.is_nan (F64.div x (F64.of_Z 1000)) = false.
Proof.
  intros Hx.
  assert (H : F64.div x (F64.of_Z 1000) <> S754_nan).
  { change (F64.of_Z 1000) with (S754_finite false 8796093022208000 (-43)).
    apply SFdiv_finite_not_nan. by intros ->. }
  by destruct (F64.div x (F64.of_Z 1000)).
Qed.

Lemma concentration_lookup (df_day : frame) (i : nat) (r : row) :
  rows df_day !! i = Some r ->
  concentration df_day !! i
  = Some ((fun x => F64.div x (F64.of_Z 1000)) <$> readings r).
Proof.
  intros Hr. unfold concentration, values.
  by rewrite !list_lookup_fmap, Hr.
Qed.

Lemma concentration_not_missing (df_day : frame) (r : row) (x : spec_float) :
  r ∈ rows df_day -> x ∈ readings r -> F64.is_nan x = false ->
  all_missing (Some (Float2d (concentration df_day))) = false.
Proof.
  intros Hr Hx E. simpl.
  apply not_true_is_false. intros Hall.
  rewrite forallb_forall in Hall.
  assert (Hrow : forallb F64.is_nan
                   ((fun x => F64.div x (F64.of_Z 1000)) <$> readings r) = true).
  { apply Hall, list_elem_of_In. unfold concentration, values.
    apply list_elem_of_fmap. exists (readings r). split; [done|].
    apply list_elem_of_fmap. eauto. }
  rewrite forallb_forall in Hrow.
  assert (Hx' : F64.is_nan (F64.div x (F64.of_Z 1000)) = true).
  { apply Hrow, list_elem_of_In, list_elem_of_fmap. eauto. }
  by rewrite div_1000_not_nan in Hx'.
Qed.


(** ** Running commands *)

Lemma bind_Ok {A B} (c : cmd A) (k : A -> cmd B) (fs fs' : files) (b : B) :
  (c ≫= k) fs = (fs', Ok b)
  <-> exists fs1 a, c fs = (fs1, Ok a) /\ k a fs1 = (fs', Ok b).
Proof.
  unfold mbind, cmd_bind. destruct (c fs) as [fs1 [a|e]]; split.
  - eauto.
  - intros (? & ? & [= <- <-] & H). done.
  - discriminate.
  - intros (? & ? & [=] & _).
Qed.


Section Stretches.
Variable parse_float : string -> option spec_float.
Variable template_variables : list string.
Variable template_attributes : gmap string string.

Lemma process_day_stretches (df : frame) (loc : string)
    (metadata : list (string * string)) (d : option date) (fs : files) :
  process_day parse_float template_variables template_attributes
              df loc metadata d fs
  = (populate parse_float template_variables template_attributes
              df loc metadata d
       ≫= fun h => delete_unneeded (fst h);; finalize loc (fst h) (snd h)) fs.
Proof.
  unfold process_day, populate, delete_unneeded, finalize.
  unfold mbind, cmd_bind, mret, cmd_ret.
  repeat match goal with
         | |- context [match ?c ?s with pair _ _ => _ end] =>
             lazymatch c with
             | context [match _ with pair _ _ => _ end] => fail
             | _ => destruct (c s) as [? [?|?]]; try reflexivity
             end
         end.
Qed.

End Stretches.

(** *** One step on the file behind the handle *)

Lemma or_raise_Ok {A} (e : exn) (o : option A) (fs fs' : files) (a : A) :
  or_raise e o fs = (fs', Ok a) <-> o = Some a /\ fs' = fs.
Proof.
  destruct o as [x|]; simpl; unfold mret, cmd_ret, raise; split.
  - by intros [= <- <-].
  - by intros [[= <-] ->].
  - discriminate.
  - by intros [[=] _].
Qed.


Section Steps.
Variables (nc : string) (fs : files).
Variables (dims : list (string * nat)) (vars : gmap string (option value))
          (attrs : gmap string string).

Lemma update_variable_step (name : string) (v : value) :
  update_variable nc name v (<[nc := NcFile dims vars attrs true]> fs)
  = match vars !! name with
    | Some _ =>
        (<[nc := NcFile dims (<[name := Some v]> vars) attrs true]> fs, Ok tt)
    | None => (<[nc := NcFile dims vars attrs true]> fs, Raise VariableNotFound)
    end.
Proof.
  unfold update_variable, on_dataset. rewrite lookup_insert_eq. simpl.
  destruct (vars !! name); [|done]. by rewrite insert_insert_eq.
Qed.

Lemma setncattr_step (k v : string) :
  setncattr nc k v (<[nc := NcFile dims vars attrs true]> fs)
  = (<[nc := NcFile dims vars (<[k := v]> attrs) true]> fs, Ok tt).
Proof.
  unfold setncattr, on_dataset. rewrite lookup_insert_eq. simpl.
  by rewrite insert_insert_eq.
Qed.

Lemma delncattr_step (k : string) :
  delncattr nc k (<[nc := NcFile dims vars attrs true]> fs)
  = match attrs !! k with
    | Some _ => (<[nc := NcFile dims vars (delete k attrs) true]> fs, Ok tt)
    | None => (<[nc := NcFile dims vars attrs true]> fs, Raise AttributeNotFound)
    end.
Proof.
  unfold delncattr, on_dataset. rewrite lookup_insert_eq. simpl.
  destruct (attrs !! k); [|done]. by rewrite insert_insert_eq.
Qed.

Lemma close_step :
  close nc (<[nc := NcFile dims vars attrs true]> fs)
  = (<[nc := NcFile dims vars attrs false]> fs, Ok tt).
Proof.
  unfold close, on_dataset. rewrite lookup_insert_eq. simpl.
  by rewrite insert_insert_eq.
Qed.

Lemma remove_empty_variables_step (o : bool) :
  remove_empty_variables nc (<[nc := NcFile dims vars attrs o]> fs)
  = (<[nc := NcFile dims
               (filter (fun kv => all_missing (snd kv) = false) vars) attrs o]> fs,
     Ok tt).
Proof.
  unfold remove_empty_variables. rewrite lookup_insert_eq. simpl.
  by rewrite insert_insert_eq.
Qed.

Lemma os_rename_step (dst : string) (f : nc_file) :
  os_rename nc dst (<[nc := f]> fs) = (<[dst := f]> (delete nc fs), Ok tt).
Proof.
  unfold os_rename. rewrite lookup_insert_eq. by rewrite delete_insert_eq.
Qed.

End Steps.


Lemma add_metadata_step (nc : string) (fs : files) (dims : list (string * nat))
    (vars : gmap string (option value)) (attrs : gmap string string)
    (metadata : list (string * string)) :
  add_metadata_to_netcdf nc metadata (<[nc := NcFile dims vars attrs true]> fs)
  = (<[nc := NcFile dims vars (merged metadata attrs) true]> fs, Ok tt).
Proof.
  unfold add_metadata_to_netcdf, merged. revert attrs.
  induction metadata as [|kv md IH]; intros a; simpl; [done|].
  unfold mbind, cmd_bind. rewrite setncattr_step. apply IH.
Qed.

(** *** One day *)

(** Split a run of [c ≫= k] that ended well into the run of [c], which is
    one of the steps above, and the run of the rest. *)
Ltac run_step H :=
  let fs1 := fresh "fs" in
  let u := fresh "u" in
  let Hs := fresh "Hs" in
  apply bind_Ok in H as (fs1 & u & Hs & H);
  first
    [ apply or_raise_Ok in Hs as [Hs ->]
    | rewrite update_variable_step in Hs;
      match type of Hs with
      | context [match ?x with Some _ => _ | None => _ end] =>
          destruct x eqn:?; [|discriminate Hs]
      end;
      injection Hs as <- <-
    | rewrite delncattr_step in Hs;
      match type of Hs with
      | context [match ?x with Some _ => _ | None => _ end] =>
          destruct x eqn:?; [|discriminate Hs]
      end;
      injection Hs as <- <-
    | rewrite setncattr_step in Hs; injection Hs as <- <-
    | rewrite add_metadata_step in Hs; injection Hs as <- <-
    | rewrite close_step in Hs; injection Hs as <- <-
    | rewrite remove_empty_variables_step in Hs; injection Hs as <- <- ].

Section Day.
Variable parse_float : string -> option spec_float.
Variable template_variables : list string.
Variable template_attributes : gmap string string.


Lemma populate_Ok (df : frame) (loc : string)
    (metadata : list (string * string)) (d : option date)
    (fs fs' : files) (h : string * string) :
  populate parse_float template_variables template_attributes
           df loc metadata d fs = (fs', Ok h) ->
  exists day t lower upper,
    day_data parse_float df d day t lower upper
    /\ h = (file_name loc "mobile" (strftime_Ymd day), strftime_Ymd day)
    /\ fs' = <[file_name loc "mobile" (strftime_Ymd day) :=
                 populated_file template_variables template_attributes
                 (select_day df d) t lower upper metadata]> fs.
Proof.
  intros H. unfold populate in H.
  run_step H. run_step H.
  destruct d as [day|]; [|discriminate Hs0]. injection Hs0 as <-.
  apply bind_Ok in H as (fs1 & nc & Hc & H).
  unfold create_netcdf in Hc. injection Hc as <- <-.
  run_step H. run_step H. run_step H.
  do 16 run_step H.
  cbv [mret cmd_ret] in H. injection H as <- <-.
  exists day. do 3 eexists.
  split; [constructor; [reflexivity | eassumption ..]|]. done.
Qed.

(** The deletion loop on an open file: it ends well exactly when the four
    attributes are all there, and otherwise raises with the file still
    open. *)
Lemma delete_unneeded_run (nc : string) (fs : files)
    (dims : list (string * nat)) (vars : gmap string (option value))
    (attrs : gmap string string) :
  (Forall (fun a => is_Some (attrs !! a)) attrs_to_delete
   /\ delete_unneeded nc (<[nc := NcFile dims vars attrs true]> fs)
      = (<[nc := NcFile dims vars (without_unneeded attrs) true]> fs, Ok tt))
  \/ (Exists (fun a => attrs !! a = None) attrs_to_delete
      /\ exists attrs',
           delete_unneeded nc (<[nc := NcFile dims vars attrs true]> fs)
           = (<[nc := NcFile dims vars attrs' true]> fs, Raise AttributeNotFound)).
Proof.
  unfold delete_unneeded, attrs_to_delete, without_unneeded. simpl.
  unfold mbind, cmd_bind.
  rewrite delncattr_step.
  destruct (attrs !! "dma_inner_radius") eqn:E1;
    [|right; split; [by repeat constructor | by eexists]].
  rewrite delncattr_step, lookup_delete_ne by done.
  destruct (attrs !! "dma_outer_radius") eqn:E2;
    [|right; split; [by repeat constructor | by eexists]].
  rewrite delncattr_step, !lookup_delete_ne by done.
  destruct (attrs !! "dma_length") eqn:E3;
    [|right; split; [by repeat constructor | by eexists]].
  rewrite delncattr_step, !lookup_delete_ne by done.
  destruct (attrs !! "impactor_orifice_diameter") eqn:E4;
    [|right; split; [by repeat constructor | by eexists]].
  left. split; [|done]. repeat constructor; eauto.
Qed.

Lemma finalize_run (loc label : string) (fs : files)
    (dims : list (string * nat)) (vars : gmap string (option value))
    (attrs : gmap string string) :
  finalize loc (file_name loc "mobile" label) label
    (<[file_name loc "mobile" label := NcFile dims vars attrs true]> fs)
  = (<[file_name loc "kiva-2-lab" label :=
         NcFile dims (filter (fun kv => all_missing (snd kv) = false) vars)
                attrs false]>
       (delete (file_name loc "mobile" label) fs), Ok tt).
Proof.
  unfold finalize, mbind, cmd_bind.
  by rewrite close_step, remove_empty_variables_step, os_rename_step.
Qed.

(** A day that ends well leaves [day_file] under the corrected name and
    nothing under the first name, and found the four attributes. *)
Lemma process_day_Ok (df : frame) (loc : string)
    (metadata : list (string * string)) (d : option date) (fs fs' : files) :
  process_day parse_float template_variables template_attributes
              df loc metadata d fs = (fs', Ok tt) ->
  exists day t lower upper,
    day_data parse_float df d day t lower upper
    /\ Forall (fun a => is_Some (merged_attributes template_attributes t metadata !! a))
              attrs_to_delete
    /\ fs' = <[file_name loc "kiva-2-lab" (strftime_Ymd day) :=
                 day_file template_variables template_attributes
                 (select_day df d) t lower upper metadata]>
               (delete (file_name loc "mobile" (strftime_Ymd day)) fs).
Proof.
  rewrite process_day_stretches. intros H.
  apply bind_Ok in H as (fs1 & h & Hp & H).
  apply populate_Ok in Hp as (day & t & lower & upper & Hd & -> & ->).
  exists day, t, lower, upper. split; [done|].
  apply bind_Ok in H as (fs2 & [] & Hdel & H). simpl in Hdel, H.
  unfold populated_file in Hdel.
  destruct (delete_unneeded_run (file_name loc "mobile" (strftime_Ymd day)) fs
              (day_dimensions (select_day df d) t)
              (written_variables template_variables (select_day df d) t lower upper)
              (merged_attributes template_attributes t metadata))
    as [[Hall E]|[_ [a' E]]]; rewrite E in Hdel; [|discriminate Hdel].
  injection Hdel as <-. split; [done|].
  rewrite finalize_run in H. by injection H as <-.
Qed.

End Day.

(** ** File names *)

Lemma append_cancel_l (s a b : string) : s +:+ a = s +:+ b -> a = b.
Proof. induction s as [|c s IH]; simpl; [done|]. intros [= H]. auto. Qed.

Lemma file_name_platform (loc l1 l2 : string) :
  file_name loc "mobile" l1 ≠ file_name loc "kiva-2-lab" l2.
Proof. unfold file_name. intros H. apply append_cancel_l in H. discriminate H. Qed.

Lemma file_name_label (loc p l1 l2 : string) :
  String.length l1 = String.length l2 ->
  file_name loc p l1 = file_name loc p l2 -> l1 = l2.
Proof.
  unfold file_name. intros Hlen H.
  do 6 apply append_cancel_l in H.
  revert l2 Hlen H. induction l1 as [|c l1 IH]; intros [|c2 l2] Hlen H;
    try discriminate Hlen; [done|].
  simpl in *. injection H as -> H. f_equal. apply IH; [lia | done].
Qed.

(** ** Dates and their rendering *)


Lemma civil_from_days_valid (z : Z) :
  -106752 <= z <= 106751 -> valid_date (civil_from_days z).
Proof.
  intros Hz. unfold valid_date, civil_from_days. simpl.
  set (doe := (z + 719468) mod 146097).
  set (era := (z + 719468) / 146097).
  assert (Hera : 4 <= era <= 5) by (subst era; Z.div_mod_to_equations; lia).
  assert (Hdoe : 0 <= doe <= 146096) by (subst doe; Z.div_mod_to_equations; lia).
  clearbody doe era.
  set (yoe := (doe - doe / 1460 + doe / 36524 - doe / 146096) / 365).
  assert (Hy : 0 <= yoe <= 399 /\ 0 <= doe - (365 * yoe + yoe / 4 - yoe / 100) <= 365)
    by (subst yoe; Z.div_mod_to_equations; lia).
  clearbody yoe.
  set (doy := doe - (365 * yoe + yoe / 4 - yoe / 100)) in *.
  clearbody doy.
  set (mp := (5 * doy + 2) / 153).
  assert (Hm : 0 <= mp <= 11 /\ 1 <= doy - (153 * mp + 2) / 5 + 1 <= 31)
    by (subst mp; Z.div_mod_to_equations; lia).
  clearbody mp.
  destruct (Z.ltb_spec mp 10);
    repeat match goal with |- context [?a <=? ?b] => destruct (Z.leb_spec a b) end;
    lia.
Qed.

Lemma utc_datetime_valid (t : Z) :
  timestamp_in_range t ->
  valid_date (dt_date (utc_datetime t))
  /\ 0 <= hour (utc_datetime t) <= 23
  /\ 0 <= minute (utc_datetime t) <= 59
  /\ 0 <= second (utc_datetime t) <= 59.
Proof.
  unfold timestamp_in_range, utc_datetime, unix_seconds, us_per_second,
    seconds_per_day. simpl. intros Ht.
  split; [apply civil_from_days_valid|];
    change (2 ^ 63) with 9223372036854775808 in Ht;
    Z.div_mod_to_equations; lia.
Qed.

Lemma date_of_valid (t : Z) (d : date) :
  timestamp_in_range t -> date_of (Some t) = Some d -> valid_date d.
Proof. intros Ht [= <-]. by apply utc_datetime_valid. Qed.

Lemma digit_inj (a b : Z) : digit a = digit b -> a mod 10 = b mod 10.
Proof.
  unfold digit. intros H. apply (f_equal nat_of_ascii) in H.
  assert (Ha : 0 <= a mod 10 < 10) by (apply Z.mod_pos_bound; lia).
  assert (Hb : 0 <= b mod 10 < 10) by (apply Z.mod_pos_bound; lia).
  rewrite !nat_ascii_embedding in H by lia. lia.
Qed.

Lemma pad2_inj (a b : Z) (r r' : string) :
  0 <= a < 100 -> 0 <= b < 100 -> pad2 a r = pad2 b r' -> a = b /\ r = r'.
Proof.
  unfold pad2. intros Ha Hb [= H1 H2 ->].
  apply digit_inj in H1, H2. split; [|done].
  Z.div_mod_to_equations; lia.
Qed.

Lemma pad4_inj (a b : Z) (r r' : string) :
  0 <= a < 10000 -> 0 <= b < 10000 -> pad4 a r = pad4 b r' -> a = b /\ r = r'.
Proof.
  unfold pad4, pad2. intros Ha Hb [= H1 H2 H3 H4 ->].
  apply digit_inj in H1, H2, H3, H4. split; [|done].
  Z.div_mod_to_equations; lia.
Qed.

(** On calendar dates the label tells the date. *)
Lemma strftime_Ymd_inj (d1 d2 : date) :
  valid_date d1 -> valid_date d2 -> strftime_Ymd d1 = strftime_Ymd d2 -> d1 = d2.
Proof.
  unfold valid_date, strftime_Ymd. destruct d1, d2; simpl.
  intros (Hy1 & Hm1 & Hd1) (Hy2 & Hm2 & Hd2) H.
  apply pad4_inj in H as [-> H1]; [|lia..].
  apply pad2_inj in H1 as [-> H2]; [|lia..].
  apply pad2_inj in H2 as [-> _]; [|lia..]. done.
Qed.

Lemma strftime_Ymd_length (d : date) : String.length (strftime_Ymd d) = 8%nat.
Proof. reflexivity. Qed.


Lemma digit_is_digit (n : Z) : is_digit (digit n) = true.
Proof.
  unfold is_digit, digit.
  assert (Hn : 0 <= n mod 10 < 10) by (apply Z.mod_pos_bound; lia).
  rewrite nat_ascii_embedding by lia.
  apply andb_true_iff. split; apply Z.leb_le; lia.
Qed.


Lemma strftime_iso_shape (x : datetime) : iso_shape (strftime_iso x) = true.
Proof.
  unfold iso_shape, strftime_iso, pad4, pad2.
  cbn -[digit is_digit]. by rewrite !digit_is_digit.
Qed.

(** ** A day that goes through *)


Lemma declared_variables_lookup (template_variables : list string) (n : string) :
  n ∈ template_variables ->
  declared_variables template_variables !! n = Some None.
Proof.
  unfold declared_variables.
  induction template_variables as [|v tv IH]; intros Hn; [inversion Hn|].
  rewrite fmap_cons. simpl. destruct (decide (v = n)) as [->|Hne].
  - by rewrite lookup_insert_eq.
  - rewrite lookup_insert_ne by done. apply IH.
    apply elem_of_cons in Hn as [->|Hn]; done.
Qed.

Lemma or_raise_Some {A} (e : exn) (a : A) (fs : files) :
  or_raise e (Some a) fs = (fs, Ok a).
Proof. reflexivity. Qed.

Section Success.
Variable parse_float : string -> option spec_float.
Variable template_variables : list string.
Variable template_attributes : gmap string string.
Hypothesis declared : written_names ⊆ template_variables.

Lemma populate_succeeds (df : frame) (loc : string)
    (metadata : list (string * string)) (day : date) (t : times)
    (lower upper : list (list spec_float)) (fs : files) :
  day_data parse_float df (Some day) day t lower upper ->
  populate parse_float template_variables template_attributes
           df loc metadata (Some day) fs
  = (<[file_name loc "mobile" (strftime_Ymd day) :=
         populated_file template_variables template_attributes
           (select_day df (Some day)) t lower upper metadata]> fs,
     Ok (file_name loc "mobile" (strftime_Ymd day), strftime_Ymd day)).
Proof using declared.
  intros [_ Ht Hl Hu].
  assert (Hdecl : forall n, n ∈ written_names ->
            declared_variables template_variables !! n = Some None).
  { intros n Hn. apply declared_variables_lookup. by apply declared. }
  unfold populate, populated_file, written_variables, merged_attributes.
  cbv beta delta [mbind cmd_bind].
  rewrite Ht, or_raise_Some. cbv beta iota zeta.
  change (strftime_date (Some day)) with (Some (strftime_Ymd day)).
  rewrite or_raise_Some. cbv beta iota zeta delta [create_netcdf].
  rewrite Hl, Hu.
  repeat (first [ rewrite update_variable_step
                | rewrite setncattr_step
                | rewrite add_metadata_step
                | rewrite or_raise_Some ];
          rewrite ?lookup_insert_ne by done;
          rewrite ?Hdecl by (unfold written_names; repeat first [left | right]);
          cbv beta iota zeta).
  reflexivity.
Qed.

Lemma process_day_succeeds (df : frame) (loc : string)
    (metadata : list (string * string)) (day : date) (t : times)
    (lower upper : list (list spec_float)) (fs : files) :
  day_data parse_float df (Some day) day t lower upper ->
  Forall (fun a => is_Some (merged_attributes template_attributes t metadata !! a))
         attrs_to_delete ->
  process_day parse_float template_variables template_attributes
              df loc metadata (Some day) fs
  = (<[file_name loc "kiva-2-lab" (strftime_Ymd day) :=
         day_file template_variables template_attributes
           (select_day df (Some day)) t lower upper metadata]>
       (delete (file_name loc "mobile" (strftime_Ymd day)) fs), Ok tt).
Proof using declared.
  intros Hd Hattrs. rewrite process_day_stretches.
  unfold mbind at 1. unfold cmd_bind at 1.
  rewrite (populate_succeeds _ _ _ _ _ _ _ _ Hd). cbv beta iota. simpl fst. simpl snd.
  unfold mbind at 1. unfold cmd_bind at 1. unfold populated_file.
  destruct (delete_unneeded_run (file_name loc "mobile" (strftime_Ymd day)) fs
              (day_dimensions (select_day df (Some day)) t)
              (written_variables template_variables (select_day df (Some day))
                 t lower upper)
              (merged_attributes template_attributes t metadata))
    as [[_ E]|[Hex _]].
  - rewrite E. cbv beta iota. by rewrite finalize_run.
  - exfalso. apply Exists_exists in Hex as (a & Ha & Hnone).
    rewrite Forall_forall in Hattrs. destruct (Hattrs a Ha) as [v Hv].
    congruence.
Qed.

End Success.

(** ** What [get_times] returns *)

Lemma get_times_Some (l : list (option Z)) (t : times) :
  get_times l = Some t ->
  l = Some <$> unix_times t
  /\ length (unix_times t) = length l
  /\ head (unix_times t) = Some (time_coverage_start_unix t)
  /\ last (unix_times t) = Some (time_coverage_end_unix t).
Proof.
  unfold get_times. intros H.
  destruct (mapM id l) as [ts|] eqn:Ets; [|discriminate H]. simpl in H.
  destruct (head ts) as [t0|] eqn:E0; [|discriminate H]. simpl in H.
  destruct (last ts) as [tn|] eqn:En; [|discriminate H]. simpl in H.
  injection H as <-. simpl.
  apply mapM_Some in Ets.
  assert (El : l = Some <$> ts).
  { clear E0 En. induction Ets as [|x y l ts Hxy _ IH]; [done|].
    simpl in Hxy. rewrite fmap_cons. by rewrite Hxy, IH. }
  split; [done|]. split; [|done].
  by rewrite El, length_fmap.
Qed.

Lemma get_times_is_Some (l : list (option Z)) :
  l ≠ [] -> Forall is_Some l -> is_Some (get_times l).
Proof.
  intros Hne Hall. unfold get_times.
  destruct (mapM_is_Some_2 id l) as [ts Ets]; [done|].
  rewrite Ets. simpl.
  assert (Hlen : length l = length ts).
  { apply mapM_Some in Ets. by eapply Forall2_length. }
  destruct ts as [|t0 ts]; [by destruct l|].
  simpl. destruct (last_is_Some (t0 :: ts)) as [_ [tn ->]]; [done|].
  simpl. eauto.
Qed.

(** ** The whole run *)

Lemma for_each_app {A} (l1 l2 : list A) (body : A -> cmd unit) (fs : files) :
  for_each (l1 ++ l2) body fs
  = match for_each l1 body fs with
    | (fs1, Ok _) => for_each l2 body fs1
    | (fs1, Raise e) => (fs1, Raise e)
    end.
Proof.
  revert fs. induction l1 as [|x l1 IH]; intros fs; simpl; [done|].
  unfold mbind, cmd_bind. destruct (body x fs) as [fs1 [[]|e]]; [apply IH | done].
Qed.

Lemma for_each_cons_Raise {A} (x : A) (l : list A) (body : A -> cmd unit)
    (fs fs' : files) (e : exn) :
  body x fs = (fs', Raise e) -> for_each (x :: l) body fs = (fs', Raise e).
Proof. intros H. simpl. unfold mbind, cmd_bind. by rewrite H. Qed.


Section Run.
Variable parse_float : string -> option spec_float.
Variable template_variables : list string.
Variable template_attributes : gmap string string.

Abbreviation process_day' :=
  (process_day parse_float template_variables template_attributes).
Abbreviation day_file' := (day_file template_variables template_attributes).


Lemma for_each_day_Ok (df : frame) (loc : string)
    (metadata : list (string * string)) (ds : list (option date))
    (fs fs' : files) :
  for_each ds (process_day' df loc metadata) fs = (fs', Ok tt) ->
  exists days,
    ds = Some <$> days
    /\ dom fs' = (dom fs ∖ list_to_set (mobile_name loc <$> days))
                 ∪ list_to_set (final_name loc <$> days)
    /\ (forall p f, fs' !! p = Some f ->
          fs !! p = Some f \/ produced parse_float template_variables template_attributes df loc metadata days p f).
Proof.
  revert fs. induction ds as [|d ds IH]; intros fs H.
  - injection H as <-. exists []. split; [done|]. split; [|by left].
    simpl. set_solver.
  - simpl in H. apply bind_Ok in H as (fs1 & [] & Hd & H).
    apply process_day_Ok in Hd as (day & t & lower & upper & Hdd & Hat & ->).
    destruct (IH _ H) as (days & -> & Hdom & Hfiles).
    pose proof (day_date _ _ _ _ _ _ _ Hdd) as ->.
    exists (day :: days). split; [done|]. split.
    + rewrite Hdom, dom_insert_L, dom_delete_L, !fmap_cons. simpl.
      fold (mobile_name loc day). fold (final_name loc day).
      assert (Hk : final_name loc day ∉
                     (list_to_set (mobile_name loc <$> days) : gset string)).
      { rewrite elem_of_list_to_set, list_elem_of_fmap.
        intros (day' & E & _). symmetry in E. by apply file_name_platform in E. }
      set_solver.
    + intros p f Hp. destruct (Hfiles p f Hp) as [Hp1|Hp1].
      * fold (final_name loc day) in Hp1.
        destruct (decide (p = final_name loc day)) as [->|Hne].
        -- rewrite lookup_insert_eq in Hp1. injection Hp1 as <-.
           right. exists day, t, lower, upper.
           split; [left|]. done.
        -- rewrite lookup_insert_ne in Hp1 by done.
           apply lookup_delete_Some in Hp1 as [_ Hp1]. by left.
      * right. destruct Hp1 as (day' & t' & l' & u' & Hin & Hrest).
        exists day', t', l', u'. split; [by right | done].
Qed.

Lemma for_each_day_succeeds (df : frame) (loc : string)
    (metadata : list (string * string)) (days : list date) (fs : files) :
  written_names ⊆ template_variables ->
  (forall day, day ∈ days ->
     exists t lower upper,
       day_data parse_float df (Some day) day t lower upper
       /\ Forall (fun a =>
                    is_Some (merged_attributes template_attributes t metadata !! a))
                 attrs_to_delete) ->
  exists fs', for_each (Some <$> days) (process_day' df loc metadata) fs
              = (fs', Ok tt).
Proof.
  intros Hdecl. revert fs. induction days as [|day days IH]; intros fs Hdays.
  - by exists fs.
  - destruct (Hdays day) as (t & lower & upper & Hd & Hat); [left|].
    rewrite fmap_cons. simpl. unfold mbind, cmd_bind.
    rewrite (process_day_succeeds _ _ _ Hdecl _ _ _ _ _ _ _ _ Hd Hat).
    apply IH. intros day' Hin. apply Hdays. by right.
Qed.

End Run.

(** ** Attributes *)

Lemma merged_lookup_other (metadata : list (string * string))
    (a : gmap string string) (k : string) :
  k ∉ (fst <$> metadata) -> merged metadata a !! k = a !! k.
Proof.
  unfold merged. revert a. induction metadata as [|kv md IH]; intros a Hk; [done|].
  simpl. rewrite fmap_cons, not_elem_of_cons in Hk. destruct Hk as [Hne Hk].
  rewrite IH by done. by rewrite lookup_insert_ne.
Qed.


Lemma without_unneeded_lookup (a : gmap string string) (k : string) :
  k ∈ attrs_to_delete -> without_unneeded a !! k = None.
Proof.
  unfold attrs_to_delete, without_unneeded. rewrite !elem_of_cons.
  intros [->|[->|[->|[->|H]]]]; [..|inversion H];
    rewrite ?lookup_delete_eq; try done;
    repeat (rewrite lookup_delete_ne by done; rewrite ?lookup_delete_eq); done.
Qed.

Lemma without_unneeded_lookup_other (a : gmap string string) (k : string) :
  k ∉ attrs_to_delete -> without_unneeded a !! k = a !! k.
Proof.
  unfold attrs_to_delete, without_unneeded. rewrite !not_elem_of_cons.
  intros (? & ? & ? & ? & _). by rewrite !lookup_delete_ne.
Qed.


(** ** The finished file of a day *)

Section Finished.
Variable parse_float : string -> option spec_float.
Variable template_variables : list string.
Variable template_attributes : gmap string string.

Abbreviation populate_ :=
  (populate parse_float template_variables template_attributes).
Abbreviation process_day_ :=
  (process_day parse_float template_variables template_attributes).

(** The two states of a day that goes through: the filled file under the
    first name, and the finished file under the final name. *)
Lemma day_run (df : frame) (loc : string)
    (metadata : list (string * string)) (d : option date) (fs fs' : files) :
  process_day_ df loc metadata d fs = (fs', Ok tt) ->
  exists day t lower upper,
    day_data parse_float df d day t lower upper
    /\ Forall (fun a => is_Some (merged_attributes template_attributes t metadata !! a))
              attrs_to_delete
    /\ populate_ df loc metadata d fs
       = (<[file_name loc "mobile" (strftime_Ymd day) :=
              populated_file template_variables template_attributes
                (select_day df d) t lower upper metadata]> fs,
          Ok (file_name loc "mobile" (strftime_Ymd day), strftime_Ymd day))
    /\ fs' = <[file_name loc "kiva-2-lab" (strftime_Ymd day) :=
                 day_file template_variables template_attributes
                   (select_day df d) t lower upper metadata]>
               (delete (file_name loc "mobile" (strftime_Ymd day)) fs).
Proof.
  intros H.
  pose proof H as H'. rewrite process_day_stretches in H'.
  apply bind_Ok in H' as (fs1 & h & Hp & _).
  pose proof Hp as Hp'.
  apply populate_Ok in Hp' as (day & t & lower & upper & Hd & -> & ->).
  apply process_day_Ok in H as (day' & t' & lower' & upper' & Hd' & Hall & ->).
  pose proof (day_date _ _ _ _ _ _ _ Hd) as E.
  pose proof (day_date _ _ _ _ _ _ _ Hd') as E'.
  rewrite E in E'. injection E' as <-.
  pose proof (day_times _ _ _ _ _ _ _ Hd) as Et.
  rewrite (day_times _ _ _ _ _ _ _ Hd') in Et. injection Et as ->.
  pose proof (day_lower _ _ _ _ _ _ _ Hd) as El.
  rewrite (day_lower _ _ _ _ _ _ _ Hd') in El. injection El as ->.
  pose proof (day_upper _ _ _ _ _ _ _ Hd) as Eu.
  rewrite (day_upper _ _ _ _ _ _ _ Hd') in Eu. injection Eu as ->.
  exists day, t, lower, upper. done.
Qed.


(** C8.  The finished file of a day has none of [dma_inner_radius],
    [dma_outer_radius], [dma_length] and [impactor_orifice_diameter].  All
    four were attributes of the file when it was filled, still open, and
    they are the only attributes that went. *)
Theorem unneeded_attributes_deleted (df : frame) (loc : string)
    (metadata : list (string * string)) (d : option date) (fs fs' : files) :
  process_day_ df loc metadata d fs = (fs', Ok tt) ->
  exists day fs1 f0 f,
    d = Some day
    /\ populate_ df loc metadata d fs
       = (fs1, Ok (file_name loc "mobile" (strftime_Ymd day), strftime_Ymd day))
    /\ fs1 !! file_name loc "mobile" (strftime_Ymd day) = Some f0
    /\ is_open f0 = true
    /\ fs' !! file_name loc "kiva-2-lab" (strftime_Ymd day) = Some f
    /\ is_open f = false
    /\ (forall a, a ∈ attrs_to_delete ->
          is_Some (attributes f0 !! a) /\ attributes f !! a = None)
    /\ (forall a, a ∉ attrs_to_delete -> attributes f !! a = attributes f0 !! a)
    /\ attrs_to_delete
       = ["dma_inner_radius"; "dma_outer_radius"; "dma_length";
          "impactor_orifice_diameter"].
Proof.
  intros H.
  pose proof H as H'. rewrite process_day_stretches in H'.
  apply bind_Ok in H' as (fs1 & h & Hp & _).
  pose proof Hp as Hp'.
  apply populate_Ok in Hp' as (day & t & lower & upper & Hd & -> & ->).
  apply process_day_Ok in H as (day' & t' & lower' & upper' & Hd' & Hall & ->).
  pose proof (day_date _ _ _ _ _ _ _ Hd) as E.
  pose proof (day_date _ _ _ _ _ _ _ Hd') as E'.
  rewrite E in E'. injection E' as <-.
  pose proof (day_times _ _ _ _ _ _ _ Hd) as Et.
  rewrite (day_times _ _ _ _ _ _ _ Hd') in Et. injection Et as ->.
  exists day. do 3 eexists.
  split; [done|]. split; [exact Hp|].
  split; [apply lookup_insert_eq|]. split; [done|].
  split; [apply lookup_insert_eq|]. split; [done|].
  split.
  { intros a Ha. simpl. split.
    - rewrite Forall_forall in Hall. by apply Hall.
    - by apply without_unneeded_lookup. }
  split; [|reflexivity].
  intros a Ha. simpl. by apply without_unneeded_lookup_other.
Qed.

End Finished.

(** ** What the day's file holds *)

Lemma replicate_not_missing (k : nat) (l : list spec_float) (x : spec_float) :
  (0 < k)%nat -> x ∈ l -> F64.is_nan x = false ->
  all_missing (Some (Float2d (replicate k l))) = false.
Proof.
  intros Hk Hx E. destruct k as [|k]; [lia|]. simpl.
  apply andb_false_iff. left.
  apply not_true_is_false. intros Hall. rewrite forallb_forall in Hall.
  apply list_elem_of_In, Hall in Hx. congruence.
Qed.

Ltac lookup_written :=
  unfold written_variables;
  repeat (rewrite lookup_insert_ne by done);
  apply lookup_insert_eq.

Section Written.
Variable parse_float : string -> option spec_float.
Variable template_variables : list string.
Variable template_attributes : gmap string string.

Abbreviation run_day :=
  (process_day parse_float template_variables template_attributes).
Abbreviation fill_day :=
  (populate parse_float template_variables template_attributes).

Lemma day_rows (df : frame) (d : option date) (day : date) (t : times)
    (lower upper : list (list spec_float)) :
  day_data parse_float df d day t lower upper ->
  length (unix_times t) = length (rows (select_day df d))
  /\ (0 < length (rows (select_day df d)))%nat.
Proof.
  intros Hd. pose proof (day_times _ _ _ _ _ _ _ Hd) as Ht.
  apply get_times_Some in Ht as (_ & Hlen & Hhead & _).
  rewrite length_fmap in Hlen. split; [done|].
  rewrite <- Hlen. destruct (unix_times t); [discriminate Hhead | simpl; lia].
Qed.

(** C1.  In a day that goes through, with [n >= 1] size-bin columns, the
    file gets the index dimension [n] and two bound matrices of one row
    per row of the day group, every row being the same [n] bounds.  The
    lower bound of channel [i] is the float of the header of column [i+1];
    the upper bound of a channel before the last is the lower bound of the
    next channel, the float of the header of column [i+2]; the upper bound
    of the last channel is 32.0, also when [n = 1].  The finished file
    holds the upper bounds, and the lower bounds unless all of them are
    NaN. *)
Theorem channel_bounds (df : frame) (loc : string)
    (metadata : list (string * string)) (d : option date) (fs fs' : files) :
  bin_columns df ≠ [] ->
  run_day df loc metadata d fs = (fs', Ok tt) ->
  exists day fs1 f0 f (lows ups : list spec_float),
    d = Some day
    /\ fill_day df loc metadata d fs
       = (fs1, Ok (file_name loc "mobile" (strftime_Ymd day), strftime_Ymd day))
    /\ fs1 !! file_name loc "mobile" (strftime_Ymd day) = Some f0
    /\ fs' !! file_name loc "kiva-2-lab" (strftime_Ymd day) = Some f
    /\ dimensions f = [("time", length (rows (select_day df d)));
                       ("index", length (bin_columns df))]
    /\ variables f0 !! "measurement_channel_lower_limit"
       = Some (Some (Float2d (replicate (length (rows (select_day df d))) lows)))
    /\ variables f0 !! "measurement_channel_upper_limit"
       = Some (Some (Float2d (replicate (length (rows (select_day df d))) ups)))
    /\ variables f !! "measurement_channel_upper_limit"
       = variables f0 !! "measurement_channel_upper_limit"
    /\ ((exists x, x ∈ lows /\ F64.is_nan x = false) ->
          variables f !! "measurement_channel_lower_limit"
          = variables f0 !! "measurement_channel_lower_limit")
    /\ length lows = length (bin_columns df)
    /\ length ups = length (bin_columns df)
    /\ (forall i, lows !! i = columns df !! (i + 1)%nat ≫= parse_float)
    /\ (forall i, (i + 1 < length (bin_columns df))%nat ->
          ups !! i = lows !! (i + 1)%nat
          /\ ups !! i = columns df !! (i + 2)%nat ≫= parse_float)
    /\ last ups = Some upper_sentinel
    /\ upper_sentinel = S754_finite false 4503599627370496 (-47).
Proof.
  intros Hn H.
  apply day_run in H as (day & t & lower & upper & Hd & Hall & Hp & ->).
  pose proof (day_date _ _ _ _ _ _ _ Hd) as E.
  destruct (day_rows _ _ _ _ _ _ Hd) as [Hlen Hpos].
  pose proof (day_lower _ _ _ _ _ _ _ Hd) as Hl.
  pose proof (day_upper _ _ _ _ _ _ _ Hd) as Hu.
  assert (Hparse : Forall (fun h => is_Some (parse_float h)) (bin_columns df)).
  { unfold lower_limits, columns in Hl. simpl in Hl. rewrite drop_0 in Hl.
    destruct (astype_float parse_float (bin_columns df)) as [l|] eqn:El;
      [|discriminate Hl].
    apply (mapM_is_Some_1 parse_float). unfold astype_float in El. by rewrite El. }
  destruct (bounds_of_headers parse_float (select_day df d)
              (length (unix_times t)) Hn Hparse)
    as (lows & ups & Hl' & Hu' & _ & Hll & Hlu & Hlook & Hup & Hlast & H32).
  rewrite Hl in Hl'. injection Hl' as ->.
  rewrite Hu in Hu'. injection Hu' as ->.
  rewrite Hlen in Hp |- *.
  exists day. do 3 eexists. exists lows, ups.
  split; [done|]. split; [exact Hp|].
  split; [apply lookup_insert_eq|]. split; [apply lookup_insert_eq|].
  split. { unfold day_file, day_dimensions, columns. cbn [dimensions].
           rewrite Hlen. cbn [length bin_columns select_day].
           do 3 f_equal. lia. }
  split; [unfold populated_file; cbn [variables]; lookup_written|].
  split; [unfold populated_file; cbn [variables]; lookup_written|].
  assert (Hkeep : forall v x, written_variables template_variables
                                (select_day df d) t
                                (replicate (length (rows (select_day df d))) lows)
                                (replicate (length (rows (select_day df d))) ups)
                              !! v = Some x ->
            all_missing x = false ->
            variables (day_file template_variables template_attributes
                         (select_day df d) t
                         (replicate (length (rows (select_day df d))) lows)
                         (replicate (length (rows (select_day df d))) ups)
                         metadata) !! v
            = Some x).
  { intros v x Hv Hx. unfold day_file. cbn [variables].
    by apply map_lookup_filter_Some. }
  split.
  { unfold populated_file at 1. cbn [variables].
    rewrite (Hkeep "measurement_channel_upper_limit"
               (Some (Float2d (replicate (length (rows (select_day df d))) ups)))).
    - symmetry. lookup_written.
    - lookup_written.
    - apply (replicate_not_missing _ _ upper_sentinel); [done| |done].
      apply last_Some_elem_of. exact Hlast. }
  split.
  { intros (x & Hx & Ex). unfold populated_file at 1. cbn [variables].
    rewrite (Hkeep "measurement_channel_lower_limit"
               (Some (Float2d (replicate (length (rows (select_day df d))) lows)))).
    - symmetry. lookup_written.
    - lookup_written.
    - by apply (replicate_not_missing _ _ x). }
  done.
Qed.

(** C2.  In a day that goes through, the finished file holds under
    [ambient_aerosol_number_per_channel] one row per retained row of the
    day and one cell per reading, the cell being the reading divided by
    1000.0.  A NaN reading gives a NaN cell, which is not a zero, and a
    reading that is not NaN gives a cell that is not NaN. *)
Theorem concentration_scaled (input : frame) (loc : string)
    (metadata : list (string * string)) (d : option date) (fs fs' : files) :
  run_day (loader input) loc metadata d fs = (fs', Ok tt) ->
  exists day f conc,
    d = Some day
    /\ fs' !! file_name loc "kiva-2-lab" (strftime_Ymd day) = Some f
    /\ variables f !! "ambient_aerosol_number_per_channel"
       = Some (Some (Float2d conc))
    /\ length conc = length (rows (select_day (loader input) d))
    /\ (forall i r, rows (select_day (loader input) d) !! i = Some r ->
          exists crow,
            conc !! i = Some crow
            /\ length crow = length (readings r)
            /\ forall j x, readings r !! j = Some x ->
                 crow !! j = Some (F64.div x (F64.of_Z 1000))
                 /\ (F64.is_nan x = true ->
                       F64.is_nan (F64.div x (F64.of_Z 1000)) = true
                       /\ F64.is_zero (F64.div x (F64.of_Z 1000)) = false)
                 /\ (F64.is_nan x = false ->
                       F64.is_nan (F64.div x (F64.of_Z 1000)) = false))
    /\ F64.of_Z 1000 = S754_finite false 8796093022208000 (-43).
Proof.
  intros H.
  apply day_run in H as (day & t & lower & upper & Hd & Hall & Hp & ->).
  pose proof (day_date _ _ _ _ _ _ _ Hd) as E.
  destruct (day_rows _ _ _ _ _ _ Hd) as [Hlen Hpos].
  exists day. eexists. exists (concentration (select_day (loader input) d)).
  split; [done|]. split; [apply lookup_insert_eq|].
  split.
  { unfold day_file. simpl. apply map_lookup_filter_Some. split.
    - lookup_written.
    - destruct (rows (select_day (loader input) d)) as [|r rs] eqn:Er;
        [simpl in Hpos; lia|].
      assert (Hr : r ∈ rows (select_day (loader input) d))
        by (rewrite Er; left).
      assert (Hr' : r ∈ rows (loader input)).
      { unfold select_day in Hr. simpl in Hr.
        by apply elem_of_bfilter in Hr as [Hr _]. }
      apply elem_of_loader in Hr' as [_ Hno].
      apply no_reading_false in Hno as (x & Hx & Ex).
      by apply (concentration_not_missing _ r x). }
  split. { unfold concentration, values. by rewrite !length_fmap. }
  split; [|reflexivity].
  intros i r Hr. eexists.
  split; [by apply concentration_lookup|].
  split; [by rewrite length_fmap|].
  intros j x Hx. rewrite list_lookup_fmap, Hx.
  split; [done|]. split.
  - intros Enan. destruct x; try discriminate Enan. by rewrite div_nan.
  - apply div_1000_not_nan.
Qed.

End Written.

(** ** Coverage *)

Lemma sorted_first_last (ts : list Z) (t0 tn : Z) :
  Sorted Z.le ts -> head ts = Some t0 -> last ts = Some tn ->
  forall x, x ∈ ts -> t0 <= x <= tn.
Proof.
  intros Hs H0 Hn x Hx. apply Sorted_StronglySorted in Hs; [|apply _].
  split.
  - destruct ts as [|t ts]; [discriminate H0|]. injection H0 as ->.
    apply StronglySorted_cons in Hs as [Hall _].
    apply elem_of_cons in Hx as [->|Hx]; [lia|].
    rewrite Forall_forall in Hall. by apply Hall.
  - apply last_Some in Hn as [l' ->].
    apply elem_of_app in Hx as [Hx|Hx].
    + eapply StronglySorted_app_1_elem_of; [exact Hs | exact Hx | left].
    + apply list_elem_of_singleton in Hx as ->. lia.
Qed.

Section Coverage.
Variable parse_float : string -> option spec_float.
Variable template_variables : list string.
Variable template_attributes : gmap string string.

(** C6, as amended.  In a day that goes through, [time_coverage_start]
    and [time_coverage_end] are set to the timestamps of the first and of
    the last row of the day group, rendered in UTC as [YYYY-MM-DDTHH:MM:SS]
    with whole seconds and nothing after them; these are the least and the
    greatest timestamp of the day when its rows ascend in time.  The
    metadata is merged over them, so the finished file has these values
    unless the side file has a pair of the same name. *)
Theorem coverage_attributes (df : frame) (loc : string)
    (metadata : list (string * string)) (d : option date) (fs fs' : files) :
  process_day parse_float template_variables template_attributes
              df loc metadata d fs = (fs', Ok tt) ->
  exists day f ts t0 tn set_attrs,
    d = Some day
    /\ fs' !! file_name loc "kiva-2-lab" (strftime_Ymd day) = Some f
    /\ time <$> rows (select_day df d) = Some <$> ts
    /\ head ts = Some t0
    /\ last ts = Some tn
    /\ attributes f = without_unneeded (merged metadata set_attrs)
    /\ set_attrs !! "time_coverage_start" = Some (strftime_iso (utc_datetime t0))
    /\ set_attrs !! "time_coverage_end" = Some (strftime_iso (utc_datetime tn))
    /\ ("time_coverage_start" ∉ (fst <$> metadata) ->
          attributes f !! "time_coverage_start"
          = Some (strftime_iso (utc_datetime t0)))
    /\ ("time_coverage_end" ∉ (fst <$> metadata) ->
          attributes f !! "time_coverage_end"
          = Some (strftime_iso (utc_datetime tn)))
    /\ iso_shape (strftime_iso (utc_datetime t0)) = true
    /\ iso_shape (strftime_iso (utc_datetime tn)) = true
    /\ (Sorted Z.le ts -> forall x, x ∈ ts -> t0 <= x <= tn).
Proof.
  intros H.
  apply day_run in H as (day & t & lower & upper & Hd & Hall & Hp & ->).
  pose proof (day_date _ _ _ _ _ _ _ Hd) as E.
  pose proof (day_times _ _ _ _ _ _ _ Hd) as Ht.
  apply get_times_Some in Ht as (Hts & _ & Hhead & Hlast).
  exists day. eexists.
  exists (unix_times t), (time_coverage_start_unix t), (time_coverage_end_unix t).
  eexists.
  split; [done|]. split; [apply lookup_insert_eq|].
  split; [done|]. split; [done|]. split; [done|].
  split; [reflexivity|].
  split. { rewrite lookup_insert_ne by done. apply lookup_insert_eq. }
  split; [apply lookup_insert_eq|].
  split.
  { intros Hk. unfold day_file, merged_attributes. cbn [attributes].
    rewrite without_unneeded_lookup_other, merged_lookup_other by
      (done || (unfold attrs_to_delete; rewrite !not_elem_of_cons;
                repeat split; (done || apply not_elem_of_nil))).
    rewrite lookup_insert_ne by done. apply lookup_insert_eq. }
  split.
  { intros Hk. unfold day_file, merged_attributes. cbn [attributes].
    rewrite without_unneeded_lookup_other, merged_lookup_other by
      (done || (unfold attrs_to_delete; rewrite !not_elem_of_cons;
                repeat split; (done || apply not_elem_of_nil))).
    apply lookup_insert_eq. }
  split; [apply strftime_iso_shape|].
  split; [apply strftime_iso_shape|].
  intros Hs. by apply sorted_first_last.
Qed.

(** C9.  The deletion has no guard.  When the file of a day is filled and
    one of the four attributes is not among its attributes, the day raises
    at the deletion and so does the loop over the days, which stops there:
    the file stays under its first name, open, with the variables as they
    were filled, and nothing is put under the final name.  And a day that
    goes through had all four attributes in its filled file. *)
Theorem deletion_is_unconditional (df : frame) (loc : string)
    (metadata : list (string * string)) (d : option date) (fs : files) :
  (forall fs1 nc label f a,
     populate parse_float template_variables template_attributes
              df loc metadata d fs = (fs1, Ok (nc, label)) ->
     fs1 !! nc = Some f ->
     a ∈ attrs_to_delete ->
     attributes f !! a = None ->
     exists fs' f',
       process_day parse_float template_variables template_attributes
                   df loc metadata d fs = (fs', Raise AttributeNotFound)
       /\ (forall ds,
             for_each (d :: ds)
               (process_day parse_float template_variables template_attributes
                            df loc metadata) fs
             = (fs', Raise AttributeNotFound))
       /\ nc = file_name loc "mobile" label
       /\ fs' !! nc = Some f'
       /\ is_open f' = true
       /\ variables f' = variables f
       /\ fs' !! file_name loc "kiva-2-lab" label
          = fs !! file_name loc "kiva-2-lab" label)
  /\ (forall fs',
        process_day parse_float template_variables template_attributes
                    df loc metadata d fs = (fs', Ok tt) ->
        exists fs1 nc label f,
          populate parse_float template_variables template_attributes
                   df loc metadata d fs = (fs1, Ok (nc, label))
          /\ fs1 !! nc = Some f
          /\ forall a, a ∈ attrs_to_delete -> is_Some (attributes f !! a)).
Proof.
  split.
  - intros fs1 nc label f a Hp Hf Ha Hnone.
    pose proof Hp as Hp'.
    apply populate_Ok in Hp' as (day & t & lower & upper & Hd & [= -> ->] & ->).
    rewrite lookup_insert_eq in Hf. injection Hf as <-.
    assert (Hrun : exists attrs',
              process_day parse_float template_variables template_attributes
                          df loc metadata d fs
              = (<[file_name loc "mobile" (strftime_Ymd day) :=
                     NcFile (day_dimensions (select_day df d) t)
                            (written_variables template_variables
                               (select_day df d) t lower upper)
                            attrs' true]> fs,
                 Raise AttributeNotFound)).
    { rewrite process_day_stretches.
      unfold mbind at 1. unfold cmd_bind at 1. rewrite Hp.
      cbv beta iota. simpl fst. simpl snd.
      unfold mbind at 1. unfold cmd_bind at 1. unfold populated_file.
      destruct (delete_unneeded_run (file_name loc "mobile" (strftime_Ymd day))
                  fs (day_dimensions (select_day df d) t)
                  (written_variables template_variables (select_day df d)
                     t lower upper)
                  (merged_attributes template_attributes t metadata))
        as [[Hall _]|[_ [attrs' E]]].
      - exfalso. rewrite Forall_forall in Hall.
        destruct (Hall a Ha) as [v Hv]. simpl in Hnone. congruence.
      - exists attrs'. by rewrite E. }
    destruct Hrun as [attrs' Hrun].
    do 2 eexists. split; [exact Hrun|].
    split; [intros ds; by apply for_each_cons_Raise|].
    split; [done|]. split; [apply lookup_insert_eq|].
    split; [done|]. split; [done|].
    rewrite lookup_insert_ne; [done|]. apply file_name_platform.
  - intros fs' H.
    apply day_run in H as (day & t & lower & upper & Hd & Hall & Hp & ->).
    do 4 eexists. split; [exact Hp|]. split; [apply lookup_insert_eq|].
    intros a Ha. rewrite Forall_forall in Hall. by apply Hall.
Qed.

End Coverage.

(** ** One file per date *)

Section Dates.
Variable parse_float : string -> option spec_float.
Variable template_variables : list string.
Variable template_attributes : gmap string string.

Lemma day_data_exists (df : frame) (day : date) :
  Some day ∈ dates df ->
  Forall (fun h => is_Some (parse_float h)) (bin_columns df) ->
  exists t lower upper,
    day_data parse_float df (Some day) day t lower upper.
Proof.
  intros Hday Hparse.
  apply list_elem_of_fmap in Hday as (r & Er & Hr).
  destruct (get_times_is_Some (time <$> rows (select_day df (Some day))))
    as [t Ht].
  - assert (Hin : r ∈ rows (select_day df (Some day))).
    { unfold select_day. simpl. apply elem_of_bfilter. split; [done|].
      apply on_day_true. split; [eauto | done]. }
    intros E. apply fmap_nil_inv in E. rewrite E in Hin. inversion Hin.
  - apply Forall_fmap, Forall_forall. intros r' Hr'.
    unfold select_day in Hr'. simpl in Hr'.
    apply elem_of_bfilter in Hr' as [_ Hon].
    apply on_day_true in Hon as [_ Hon]. simpl.
    destruct (time r'); [eauto | discriminate Hon].
  - destruct (mapM_is_Some_2 parse_float (bin_columns df)) as [lows Hl].
    { eapply Forall_impl; [exact Hparse|]. done. }
    exists t. do 2 eexists. constructor; [done | exact Ht | |].
    + unfold lower_limits, columns. simpl. rewrite drop_0.
      unfold astype_float. by rewrite Hl.
    + by apply upper_limits_of_lower.
Qed.


Abbreviation run := (main parse_float template_variables template_attributes).

Lemma main_Ok (input : frame) (loc : string) (metadata : list (string * string))
    (fs fs' : files) :
  run input loc metadata fs = (fs', Ok tt) ->
  exists days,
    unique (dates (loader input)) = Some <$> days
    /\ NoDup days
    /\ (forall day, day ∈ days
          <-> exists r, r ∈ rows (loader input) /\ date_of (time r) = Some day)
    /\ (forall r, r ∈ rows (loader input) -> is_Some (time r))
    /\ dom fs' = (dom fs ∖ list_to_set (mobile_name loc <$> days))
                 ∪ list_to_set (final_name loc <$> days).
Proof.
  unfold main. intros H.
  apply for_each_day_Ok in H as (days & Hds & Hdom & _).
  exists days. split; [done|].
  assert (Hin : forall d, d ∈ unique (dates (loader input))
                  <-> exists r, r ∈ rows (loader input) /\ date_of (time r) = d).
  { intros d. rewrite elem_of_unique. unfold dates. rewrite list_elem_of_fmap.
    split; intros (r & H1 & H2); exists r; auto. }
  split.
  { pose proof (NoDup_unique (dates (loader input))) as Hnd.
    rewrite Hds in Hnd. by apply NoDup_fmap_1 in Hnd. }
  split.
  { intros day. rewrite <- Hin, Hds, list_elem_of_fmap. split.
    - intros Hday. by exists day.
    - by intros (day' & [= ->] & Hday). }
  split; [|done].
  intros r Hr.
  assert (Hd : date_of (time r) ∈ unique (dates (loader input))).
  { apply Hin. eauto. }
  rewrite Hds in Hd. apply list_elem_of_fmap in Hd as (day & E & _).
  destruct (time r); [eauto | discriminate E].
Qed.


End Dates.

(** ** The example run *)

Lemma day1_goes_through :
  process_day decimal_float Example.template_variables
    Example.template_attributes (loader Example.input) "out" Example.metadata
    Example.day1 ∅
  = (Example.day1_files, Ok tt).
Proof. reflexivity. Qed.

Ltac not_a_key :=
  let H := fresh in
  intros H; simpl in H;
  repeat (apply elem_of_cons in H as [H|H]; [discriminate H|]);
  inversion H.

Lemma loader_drop_passes_witness :
  rows (loader Example.input)
  = [Row 0 (Some 1685577610000000) [F64.of_Z 1500; S754_nan; F64.of_Z 3];
     Row 2 (Some 1685577620000000) [F64.of_Z 7; F64.of_Z 8; F64.of_Z 9];
     Row 3 (Some 1685664000000000) [S754_nan; F64.of_Z 1; S754_nan]]
  /\ Row 0 (Some 1685577610000000) [F64.of_Z 1500; S754_nan; F64.of_Z 3]
     ∈ rows (loader Example.input).
Proof.
  split; [reflexivity|].
  apply (proj2 (proj2 (proj2 (proj2 (proj2 (proj2
           (loader_drop_passes Example.input)))))) _ (F64.of_Z 1500)).
  - left.
  - simpl. eauto.
  - left.
  - reflexivity.
Defined.

Lemma loader_keeps_untimed_rows_witness :
  Row 0 None [F64.of_Z 5] ∈ rows (loader untimed_input).
Proof.
  apply (loader_keeps_untimed_rows untimed_input (Row 0 None [F64.of_Z 5])).
  - left.
  - reflexivity.
  - exists (F64.of_Z 5). split; [left | reflexivity].
Defined.

Lemma day_groups_partition_witness :
  rows (loader Example.input)
  ≡ₚ concat (group_rows <$> day_groups (loader Example.input)).
Proof.
  apply (day_groups_partition (loader Example.input)).
  intros r Hr. vm_compute in Hr.
  repeat (apply elem_of_cons in Hr as [->|Hr]; [simpl; eauto|]).
  inversion Hr.
Defined.

Lemma channel_bounds_witness :
  exists lows ups : list spec_float,
    length lows = 3%nat
    /\ ups !! 0%nat = lows !! 1%nat
    /\ ups !! 1%nat = lows !! 2%nat
    /\ last ups = Some (S754_finite false 4503599627370496 (-47)).
Proof.
  destruct (channel_bounds decimal_float Example.template_variables
              Example.template_attributes (loader Example.input) "out"
              Example.metadata Example.day1 ∅ Example.day1_files)
    as (day & fs1 & f0 & f & lows & ups & _ & _ & _ & _ & _ & _ & _ & _ & _
        & Hlen & _ & _ & Hup & Hlast & H32).
  - discriminate.
  - exact day1_goes_through.
  - exists lows, ups. split; [exact Hlen|].
    split; [apply (Hup 0%nat); simpl; lia|].
    split; [apply (Hup 1%nat); simpl; lia|].
    rewrite <- H32. exact Hlast.
Defined.

Lemma concentration_scaled_witness :
  exists f conc,
    Example.day1_files
      !! "out/ncas-opc-1_kiva-2-lab_20230601_aerosol-size-distribution_v1.0.nc"
    = Some f
    /\ variables f !! "ambient_aerosol_number_per_channel"
       = Some (Some (Float2d conc))
    /\ length conc = 2%nat.
Proof.
  destruct (concentration_scaled decimal_float Example.template_variables
              Example.template_attributes Example.input "out"
              Example.metadata Example.day1 ∅ Example.day1_files)
    as (day & f & conc & Hd & Hf & Hv & Hlen & _).
  - exact day1_goes_through.
  - injection Hd as <-. exists f, conc. split; [exact Hf|]. split; [exact Hv|].
    exact Hlen.
Defined.


Lemma unneeded_attributes_deleted_witness :
  exists f,
    Example.day1_files !! Example.day1_name = Some f
    /\ attributes f !! "dma_inner_radius" = None
    /\ attributes f !! "dma_outer_radius" = None
    /\ attributes f !! "dma_length" = None
    /\ attributes f !! "impactor_orifice_diameter" = None.
Proof.
  destruct (unneeded_attributes_deleted decimal_float Example.template_variables
              Example.template_attributes (loader Example.input) "out"
              Example.metadata Example.day1 ∅ Example.day1_files)
    as (day & fs1 & f0 & f & Hd & _ & _ & _ & Hf & _ & Hgone & _).
  - exact day1_goes_through.
  - injection Hd as <-. exists f. split; [exact Hf|].
    repeat split; apply Hgone; unfold attrs_to_delete;
      repeat first [left | right].
Defined.

Lemma coverage_attributes_witness :
  exists f t0 tn,
    Example.day1_files !! Example.day1_name = Some f
    /\ attributes f !! "time_coverage_start"
       = Some (strftime_iso (utc_datetime t0))
    /\ attributes f !! "time_coverage_end"
       = Some (strftime_iso (utc_datetime tn))
    /\ iso_shape (strftime_iso (utc_datetime t0)) = true.
Proof.
  destruct (coverage_attributes decimal_float Example.template_variables
              Example.template_attributes (loader Example.input) "out"
              Example.metadata Example.day1 ∅ Example.day1_files)
    as (day & f & ts & t0 & tn & set_attrs & Hd & Hf & _ & _ & _ & _ & _ & _
        & Hstart & Hend & Hshape & _).
  - exact day1_goes_through.
  - injection Hd as <-. exists f, t0, tn. split; [exact Hf|].
    split; [apply Hstart; not_a_key|].
    split; [apply Hend; not_a_key | exact Hshape].
Defined.

(** C6, as stated, fails: on the day of [Example.descending] the coverage
    start is the timestamp of the first row, 00:00:20, and the coverage end
    that of the last row, 00:00:10, while the least and greatest timestamps
    of the day are 00:00:10 and 00:00:20. *)
Lemma coverage_is_first_and_last_row :
  time <$> rows (loader Example.descending)
  = [Some 1685577620000000; Some 1685577610000000]
  /\ Example.attribute_at
       (fst (Example.run Example.descending "out" Example.metadata ∅))
       Example.day1_name "time_coverage_start"
     = Some "2023-06-01T00:00:20"
  /\ strftime_iso (utc_datetime (Z.min 1685577620000000 1685577610000000))
     = "2023-06-01T00:00:10"
  /\ Example.attribute_at
       (fst (Example.run Example.descending "out" Example.metadata ∅))
       Example.day1_name "time_coverage_end"
     = Some "2023-06-01T00:00:10"
  /\ strftime_iso (utc_datetime (Z.max 1685577620000000 1685577610000000))
     = "2023-06-01T00:00:20".
Proof. repeat split; reflexivity. Qed.


Lemma short_template_fills :
  populate decimal_float Example.template_variables Example.short_attributes
    (loader Example.input) "out" Example.metadata Example.day1 ∅
  = (Example.short_filled, Ok (Example.day1_first_name, "20230601")).
Proof. reflexivity. Qed.

Lemma deletion_is_unconditional_witness :
  exists fs' f',
    process_day decimal_float Example.template_variables
      Example.short_attributes (loader Example.input) "out" Example.metadata
      Example.day1 ∅
    = (fs', Raise AttributeNotFound)
    /\ fs' !! Example.day1_first_name = Some f'
    /\ is_open f' = true
    /\ fs' !! Example.day1_name = None.
Proof.
  pose proof short_template_fills as Hp.
  pose proof Hp as Hp'.
  apply populate_Ok in Hp' as (day & t & lower & upper & Hd & _ & Hfs).
  pose proof (day_date _ _ _ _ _ _ _ Hd) as [= <-].
  destruct (proj1 (deletion_is_unconditional decimal_float
                     Example.template_variables Example.short_attributes
                     (loader Example.input) "out" Example.metadata
                     Example.day1 ∅)
              Example.short_filled Example.day1_first_name "20230601"
              (populated_file Example.template_variables Example.short_attributes
                 (select_day (loader Example.input) Example.day1) t lower upper
                 Example.metadata)
              "dma_length" Hp)
    as (fs' & f' & Hrun & _ & _ & Hf' & Hopen & _ & Hfinal).
  - rewrite Hfs. apply lookup_insert_eq.
  - unfold attrs_to_delete. repeat first [left | right].
  - unfold populated_file, merged_attributes, Example.metadata, merged.
    cbn [attributes foldl fst snd].
    rewrite !lookup_insert_ne by done. apply lookup_delete_eq.
  - exists fs', f'. split; [exact Hrun|]. split; [exact Hf'|].
    split; [exact Hopen|].
    change Example.day1_name with (file_name "out" "kiva-2-lab" "20230601").
    rewrite Hfinal. apply lookup_empty.
Defined.


(** * Further properties *)

(** ** The loader, once more *)

Lemma bfilter_bfilter {A} (p q : A -> bool) (l : list A) :
  List.filter p (List.filter q l) = List.filter (fun x => q x && p x) l.
Proof.
  induction l as [|x l IH]; simpl; [done|].
  destruct (q x); simpl; [|done]. destruct (p x); by rewrite IH.
Qed.

Lemma bfilter_ext_in {A} (p q : A -> bool) (l : list A) :
  (forall x, x ∈ l -> p x = q x) -> List.filter p l = List.filter q l.
Proof.
  induction l as [|x l IH]; intros H; simpl; [done|].
  rewrite (H x) by left. rewrite IH; [done|]. intros y Hy. apply H. by right.
Qed.

Lemma bfilter_all {A} (p : A -> bool) (l : list A) :
  (forall x, x ∈ l -> p x = true) -> List.filter p l = l.
Proof.
  induction l as [|x l IH]; intros H; simpl; [done|].
  rewrite (H x) by left. rewrite IH; [done|]. intros y Hy. apply H. by right.
Qed.

Lemma bfilter_none {A} (p : A -> bool) (l : list A) :
  (forall x, x ∈ l -> p x = false) -> List.filter p l = [].
Proof.
  induction l as [|x l IH]; intros H; simpl; [done|].
  rewrite (H x) by left. apply IH. intros y Hy. apply H. by right.
Qed.

Lemma loader_dropna_readings (input : frame) :
  loader input = dropna_readings input.
Proof.
  unfold loader, dropna_readings, dropna_all. simpl. f_equal.
  rewrite bfilter_bfilter. apply bfilter_ext_in. intros r _.
  destruct (isna_time r), (no_reading r); reflexivity.
Qed.

(** X1.  The first drop pass never decides: the loader keeps exactly the
    rows that the second pass alone keeps.  Loading again what the loader
    gave changes nothing, and a table in which every row has a reading comes
    out as it went in. *)
Theorem loader_is_the_second_pass (input : frame) :
  loader input = dropna_readings input
  /\ loader (loader input) = loader input
  /\ ((forall r, r ∈ rows input -> no_reading r = false) -> loader input = input).
Proof.
  split; [apply loader_dropna_readings|]. split.
  - rewrite !loader_dropna_readings. unfold dropna_readings. simpl. f_equal.
    rewrite bfilter_bfilter. apply bfilter_ext_in. intros r _.
    by destruct (no_reading r).
  - intros H. rewrite loader_dropna_readings.
    destruct input as [tc bc rs]. unfold dropna_readings.
    simpl in *. f_equal. apply bfilter_all. intros r Hr. by rewrite (H r Hr).
Qed.

(** ** The order of the days *)

Lemma unique_from_app {A} `{EqDecision A} (s1 s2 l : list A) :
  unique_from (s1 ++ s2) l
  = unique_from s1 (List.filter (fun y => bool_decide (y ∉ s2)) l).
Proof.
  revert s1. induction l as [|x l IH]; intros s1; simpl; [done|].
  destruct (decide (x ∈ s2)) as [H2|H2].
  - rewrite bool_decide_eq_false_2 by tauto.
    rewrite decide_True by (rewrite elem_of_app; tauto). apply IH.
  - rewrite bool_decide_eq_true_2 by done. simpl.
    destruct (decide (x ∈ s1)) as [H1|H1].
    + rewrite decide_True by (rewrite elem_of_app; tauto). apply IH.
    + rewrite decide_False by (rewrite elem_of_app; tauto).
      f_equal. apply (IH (x :: s1)).
Qed.

Lemma unique_from_sublist {A} `{EqDecision A} (seen l : list A) :
  sublist (unique_from seen l) l.
Proof.
  revert seen. induction l as [|x l IH]; intros seen; simpl; [constructor|].
  destruct (decide (x ∈ seen)); [apply sublist_cons | apply sublist_skip]; apply IH.
Qed.

(** X2.  The days come in the order in which their dates first appear in
    the table, not in the order of the calendar: the distinct values of a
    column start with its first value and go on with the distinct values of
    the rest without it, and they are a subsequence of the column. *)
Theorem unique_in_order_of_appearance {A} `{EqDecision A} (x : A) (l : list A) :
  unique (x :: l) = x :: unique (List.filter (fun y => bool_decide (y ≠ x)) l)
  /\ sublist (unique (x :: l)) (x :: l)
  /\ unique ([] : list A) = [].
Proof.
  split; [|split; [apply unique_from_sublist | reflexivity]].
  unfold unique. simpl. f_equal.
  rewrite (unique_from_app [] [x] l). f_equal.
  apply bfilter_ext_in. intros y _. apply bool_decide_ext.
  rewrite list_elem_of_singleton. done.
Qed.


(** ** Runs that write nothing *)

Section Idle.
Variable parse_float : string -> option spec_float.
Variable template_variables : list string.
Variable template_attributes : gmap string string.

Lemma untimed_day_raises (df : frame) (loc : string)
    (metadata : list (string * string)) (fs : files) :
  process_day parse_float template_variables template_attributes
              df loc metadata None fs = (fs, Raise IndexError).
Proof.
  unfold process_day, select_day. simpl.
  rewrite (bfilter_none (on_day None) (rows df)) by done. reflexivity.
Qed.

(** X3.  A table with rows, none of which has a reading, gives no day at
    all: the loader drops every row, the loop has no round, and the run
    goes through and leaves the directory as it found it.  This is the case
    of a table of blank readings and of a table without size-bin columns.
    (The table has rows: pandas makes no timestamp column of a csv file
    without data rows.) *)
Theorem nothing_to_convert (input : frame) (loc : string)
    (metadata : list (string * string)) (fs : files) :
  rows input ≠ [] ->
  (forall r, r ∈ rows input -> no_reading r = true) ->
  rows (loader input) = []
  /\ main parse_float template_variables template_attributes
          input loc metadata fs = (fs, Ok tt).
Proof.
  intros _ H.
  assert (E : rows (loader input) = []).
  { rewrite loader_dropna_readings. unfold dropna_readings. simpl.
    apply bfilter_none. intros r Hr. by rewrite (H r Hr). }
  split; [exact E|]. unfold main, dates. by rewrite E.
Qed.

(** X4.  When the first row that survives the loader has no timestamp, the
    first round of the loop is the round of NaT: it raises before any file
    is made, so the run ends with the directory as it found it, whatever
    the rows after it are. *)
Theorem untimed_first_row_stops_the_run (input : frame) (loc : string)
    (metadata : list (string * string)) (fs : files) (r : row) (rs : list row) :
  rows (loader input) = r :: rs ->
  time r = None ->
  exists e,
    main parse_float template_variables template_attributes
         input loc metadata fs = (fs, Raise e).
Proof.
  intros Hrows Ht. exists IndexError. unfold main, dates. rewrite Hrows.
  rewrite fmap_cons, Ht. simpl date_of.
  unfold unique. simpl unique_from.
  apply for_each_cons_Raise, untimed_day_raises.
Qed.

End Idle.


(** ** A day that raises *)




Section Raised.
Variable parse_float : string -> option spec_float.
Variable template_variables : list string.
Variable template_attributes : gmap string string.



End Raised.


Section Left.
Variable parse_float : string -> option spec_float.
Variable template_variables : list string.
Variable template_attributes : gmap string string.





End Left.


(** ** When a day goes through *)

Lemma declared_variables_is_Some (template_variables : list string) (n : string) :
  is_Some (declared_variables template_variables !! n) -> n ∈ template_variables.
Proof.
  unfold declared_variables.
  induction template_variables as [|v tv IH]; simpl.
  - rewrite lookup_empty. by intros [? ?].
  - destruct (decide (v = n)) as [->|Hne]; [left|].
    rewrite lookup_insert_ne by done. intros H. right. by apply IH.
Qed.

Lemma merged_lookup_is_Some_iff (metadata : list (string * string))
    (a : gmap string string) (k : string) :
  is_Some (merged metadata a !! k)
  <-> is_Some (a !! k) \/ k ∈ (fst <$> metadata).
Proof.
  unfold merged. revert a. induction metadata as [|kv md IH]; intros a.
  - simpl. split; [by left|]. intros [H|H]; [done | inversion H].
  - rewrite fmap_cons, elem_of_cons. cbn [foldl]. rewrite IH.
    destruct (decide (fst kv = k)) as [->|Hne].
    + rewrite lookup_insert_eq. split; [|by left; eexists]. tauto.
    + rewrite lookup_insert_ne by done. split; [tauto|].
      intros [H|[H|H]]; [tauto | congruence | tauto].
Qed.

Section Through.
Variable parse_float : string -> option spec_float.
Variable template_variables : list string.
Variable template_attributes : gmap string string.

Lemma populate_Ok_declared (df : frame) (loc : string)
    (metadata : list (string * string)) (d : option date)
    (fs fs' : files) (h : string * string) :
  populate parse_float template_variables template_attributes
           df loc metadata d fs = (fs', Ok h) ->
  written_names ⊆ template_variables.
Proof.
  intros H. unfold populate in H.
  run_step H. run_step H.
  destruct d as [day|]; [|discriminate Hs0]. injection Hs0 as <-.
  apply bind_Ok in H as (fs1 & nc & Hc & H).
  unfold create_netcdf in Hc. injection Hc as <- <-.
  do 15 run_step H. clear H.
  intros n Hn. unfold written_names in Hn.
  apply declared_variables_is_Some.
  repeat match goal with
         | E : _ !! _ = Some _ |- _ =>
             rewrite !lookup_insert_ne in E by done
         end.
  repeat (apply elem_of_cons in Hn as [->|Hn]; [eauto|]).
  inversion Hn.
Qed.

(** The four attributes are there for the deletion when each is an
    attribute of the template or a key of the metadata. *)
Lemma unneeded_present_iff (t : times) (metadata : list (string * string)) :
  Forall (fun a => is_Some (merged_attributes template_attributes t metadata !! a))
         attrs_to_delete
  <-> Forall (fun a => is_Some (template_attributes !! a)
                       \/ a ∈ (fst <$> metadata)) attrs_to_delete.
Proof.
  rewrite !Forall_forall. split; intros H a Ha; specialize (H a Ha);
    unfold merged_attributes in *;
    rewrite merged_lookup_is_Some_iff in *;
    unfold attrs_to_delete in Ha;
    repeat (apply elem_of_cons in Ha as [->|Ha];
            [by rewrite !lookup_insert_ne in * by done|]);
    inversion Ha.
Qed.

Lemma day_goes_through_iff (df : frame) (loc : string)
    (metadata : list (string * string)) (d : option date) (fs : files) :
  (exists fs', process_day parse_float template_variables template_attributes
                           df loc metadata d fs = (fs', Ok tt))
  <-> exists day,
        d = Some day
        /\ Some day ∈ dates df
        /\ Forall (fun h => is_Some (parse_float h)) (bin_columns df)
        /\ written_names ⊆ template_variables
        /\ Forall (fun a => is_Some (template_attributes !! a)
                            \/ a ∈ (fst <$> metadata)) attrs_to_delete.
Proof.
  split.
  - intros [fs' H].
    apply day_run in H as (day & t & lower & upper & Hd & Hall & Hp & _).
    exists day. pose proof (day_date _ _ _ _ _ _ _ Hd) as ->.
    split; [done|]. split.
    { destruct (day_rows _ _ _ _ _ _ _ Hd) as [_ Hpos].
      destruct (rows (select_day df (Some day))) as [|r rs] eqn:Er;
        [simpl in Hpos; lia|].
      assert (Hr : r ∈ rows (select_day df (Some day))) by (rewrite Er; left).
      unfold select_day in Hr. simpl in Hr.
      apply elem_of_bfilter in Hr as [Hr Hon].
      apply on_day_true in Hon as [_ Hon].
      unfold dates. apply list_elem_of_fmap. eauto. }
    split.
    { pose proof (day_lower _ _ _ _ _ _ _ Hd) as Hl.
      unfold lower_limits, columns in Hl. simpl in Hl. rewrite drop_0 in Hl.
      destruct (astype_float parse_float (bin_columns df)) as [l|] eqn:El;
        [|discriminate Hl].
      apply (mapM_is_Some_1 parse_float). unfold astype_float in El.
      by rewrite El. }
    split; [by eapply populate_Ok_declared|].
    by apply unneeded_present_iff in Hall.
  - intros (day & -> & Hday & Hparse & Hdecl & Hattrs).
    destruct (day_data_exists parse_float df day Hday Hparse)
      as (t & lower & upper & Hd).
    eexists. apply (process_day_succeeds _ _ _ Hdecl _ _ _ _ _ _ _ _ Hd).
    by apply unneeded_present_iff.
Qed.

End Through.


(** ** Days and the directory *)

Lemma apply_days_lookup (steps : list (string * string * nc_file))
    (fs : files) (p : string) :
  apply_days steps fs !! p = path_after steps p (fs !! p).
Proof.
  revert fs. induction steps as [|[[k m] f] steps IH]; intros fs; simpl; [done|].
  rewrite IH. f_equal. unfold apply_day. simpl.
  destruct (decide (p = k)) as [->|Hk]; [by rewrite lookup_insert_eq|].
  rewrite lookup_insert_ne by done.
  destruct (decide (p = m)) as [->|Hm]; [by rewrite lookup_delete_eq|].
  by rewrite lookup_delete_ne.
Qed.

Lemma path_after_twice (steps : list (string * string * nc_file)) (p : string) :
  (forall o, path_after steps p o = o)
  \/ (exists c, forall o, path_after steps p o = c).
Proof.
  induction steps as [|[[k m] f] steps IH]; simpl; [by left|].
  destruct IH as [IH|[c IH]].
  - destruct (decide (p = k)); [right; eexists; intros; by rewrite IH|].
    destruct (decide (p = m)); [right; eexists; intros; by rewrite IH|].
    left. intros o. by rewrite IH.
  - right. exists c. intros o. by rewrite IH.
Qed.

Lemma apply_days_twice (steps : list (string * string * nc_file)) (fs : files) :
  apply_days steps (apply_days steps fs) = apply_days steps fs.
Proof.
  apply map_eq. intros p. rewrite !apply_days_lookup.
  destruct (path_after_twice steps p) as [H|[c H]]; by rewrite !H.
Qed.

Section Elsewhere.
Variable parse_float : string -> option spec_float.
Variable template_variables : list string.
Variable template_attributes : gmap string string.

Lemma process_day_elsewhere (df : frame) (loc : string)
    (metadata : list (string * string)) (d : option date) (fs fs' : files) :
  process_day parse_float template_variables template_attributes
              df loc metadata d fs = (fs', Ok tt) ->
  exists day f,
    d = Some day
    /\ forall fs2,
         process_day parse_float template_variables template_attributes
                     df loc metadata d fs2
         = (apply_day (final_name loc day, mobile_name loc day, f) fs2, Ok tt).
Proof.
  intros H.
  apply day_run in H as (day & t & lower & upper & Hd & Hall & Hp & _).
  apply populate_Ok_declared in Hp.
  pose proof (day_date _ _ _ _ _ _ _ Hd) as ->.
  exists day. eexists. split; [done|]. intros fs2.
  by rewrite (process_day_succeeds _ _ _ Hp _ _ _ _ _ _ _ _ Hd Hall).
Qed.

Lemma for_each_day_elsewhere (df : frame) (loc : string)
    (metadata : list (string * string)) (ds : list (option date))
    (fs fs' : files) :
  for_each ds (process_day parse_float template_variables template_attributes
                 df loc metadata) fs = (fs', Ok tt) ->
  exists steps,
    forall fs2,
      for_each ds (process_day parse_float template_variables
                     template_attributes df loc metadata) fs2
      = (apply_days steps fs2, Ok tt).
Proof.
  revert fs. induction ds as [|d ds IH]; intros fs H.
  - by exists [].
  - simpl in H. apply bind_Ok in H as (fs1 & [] & Hd & H).
    apply process_day_elsewhere in Hd as (day & f & -> & Hd).
    destruct (IH _ H) as [steps Hsteps].
    exists ((final_name loc day, mobile_name loc day, f) :: steps).
    intros fs2. simpl. unfold mbind, cmd_bind. by rewrite Hd, Hsteps.
Qed.

(** X7.  A day does not read the directory: if it goes through on one
    directory it goes through on every directory and leaves the same file,
    under the final name and with nothing under the first name; and if it
    raises on one directory it raises on every directory. *)
Theorem day_does_not_read_the_directory (df : frame) (loc : string)
    (metadata : list (string * string)) (d : option date) (fs fs' : files) :
  (process_day parse_float template_variables template_attributes
               df loc metadata d fs = (fs', Ok tt) ->
   exists day f,
     d = Some day
     /\ forall fs2,
          process_day parse_float template_variables template_attributes
                      df loc metadata d fs2
          = (<[file_name loc "kiva-2-lab" (strftime_Ymd day) := f]>
               (delete (file_name loc "mobile" (strftime_Ymd day)) fs2), Ok tt))
  /\ (forall e,
        process_day parse_float template_variables template_attributes
                    df loc metadata d fs = (fs', Raise e) ->
        forall fs2, exists fs2' e2,
          process_day parse_float template_variables template_attributes
                      df loc metadata d fs2 = (fs2', Raise e2)).
Proof.
  split.
  - intros H. apply process_day_elsewhere in H as (day & f & -> & H).
    by exists day, f.
  - intros e H fs2.
    destruct (process_day parse_float template_variables template_attributes
                df loc metadata d fs2) as [fs2' [[]|e2]] eqn:H2; [|by eauto].
    apply process_day_elsewhere in H2 as (day & f & -> & H2).
    rewrite H2 in H. discriminate H.
Qed.

(** X8.  Running the conversion again on the directory that a run which
    went through has left goes through too and leaves the directory as it
    is. *)
Theorem second_run_changes_nothing (input : frame) (loc : string)
    (metadata : list (string * string)) (fs fs' : files) :
  main parse_float template_variables template_attributes
       input loc metadata fs = (fs', Ok tt) ->
  main parse_float template_variables template_attributes
       input loc metadata fs' = (fs', Ok tt).
Proof.
  unfold main. intros H.
  destruct (for_each_day_elsewhere _ _ _ _ _ _ H) as [steps Hsteps].
  rewrite Hsteps in H. injection H as <-.
  by rewrite Hsteps, apply_days_twice.
Qed.

(** X9.  On a table with rows the run goes through exactly when every row
    that survives the loader has a timestamp and, unless no row survives,
    every size-bin header reads as a float, the template declares the
    thirteen variables that [main] writes, and each of the four attributes
    that [main] deletes is an attribute of the template or a key of the
    metadata.  Whether it goes through does not depend on the directory. *)
Theorem run_goes_through_iff (input : frame) (loc : string)
    (metadata : list (string * string)) (fs : files) :
  rows input ≠ [] ->
  (exists fs', main parse_float template_variables template_attributes
                    input loc metadata fs = (fs', Ok tt))
  <-> (forall r, r ∈ rows (loader input) -> is_Some (time r))
      /\ (rows (loader input) = []
          \/ (Forall (fun h => is_Some (parse_float h)) (bin_columns input)
              /\ written_names ⊆ template_variables
              /\ Forall (fun a => is_Some (template_attributes !! a)
                                  \/ a ∈ (fst <$> metadata)) attrs_to_delete)).
Proof.
  intros _. split.
  - intros [fs' H]. pose proof H as H'.
    apply main_Ok in H' as (days & _ & _ & _ & Htimes & _).
    split; [exact Htimes|].
    destruct (rows (loader input)) as [|r rs] eqn:Er; [by left|]. right.
    unfold main, dates in H. rewrite Er in H.
    rewrite fmap_cons in H. unfold unique in H. simpl unique_from in H.
    apply bind_Ok in H as (fs1 & [] & Hd & _).
    assert (Hex : exists fs1,
              process_day parse_float template_variables template_attributes
                (loader input) loc metadata (date_of (time r)) fs = (fs1, Ok tt))
      by eauto.
    apply day_goes_through_iff in Hex as (day & _ & _ & Hparse & Hdecl & Hattrs).
    done.
  - intros [Htimes Hcond].
    assert (Hsome : exists days, unique (dates (loader input)) = Some <$> days).
    { assert (Hall : Forall is_Some (unique (dates (loader input)))).
      { apply Forall_forall. intros d Hd. rewrite elem_of_unique in Hd.
        apply list_elem_of_fmap in Hd as (r & -> & Hr).
        destruct (Htimes r Hr) as [t ->]. simpl. eauto. }
      induction Hall as [|d ds [day ->] _ [days ->]]; [by exists []|].
      by exists (day :: days). }
    destruct Hsome as [days Hds]. unfold main. rewrite Hds.
    destruct Hcond as [Hempty|(Hparse & Hdecl & Hattrs)].
    + unfold dates in Hds. rewrite Hempty in Hds.
      destruct days; [|discriminate Hds]. by exists fs.
    + apply for_each_day_succeeds; [done|].
      intros day Hday.
      destruct (day_data_exists parse_float (loader input) day)
        as (t & lower & upper & Hd).
      * rewrite <- (elem_of_unique (dates (loader input))), Hds.
        apply list_elem_of_fmap. eauto.
      * exact Hparse.
      * exists t, lower, upper. split; [done|]. by apply unneeded_present_iff.
Qed.

End Elsewhere.


(** ** What else the day's file holds *)

Lemma get_times_fields (l : list (option Z)) (t : times) :
  get_times l = Some t ->
  day_of_years t = (fun x => day_of_year (dt_date (utc_datetime x))) <$> unix_times t
  /\ years t = (fun x => year (dt_date (utc_datetime x))) <$> unix_times t
  /\ months t = (fun x => month (dt_date (utc_datetime x))) <$> unix_times t
  /\ days t = (fun x => day (dt_date (utc_datetime x))) <$> unix_times t
  /\ hours t = (fun x => hour (utc_datetime x)) <$> unix_times t
  /\ minutes t = (fun x => minute (utc_datetime x)) <$> unix_times t
  /\ seconds t = (fun x => second (utc_datetime x)) <$> unix_times t
  /\ file_date t
     = strftime_Ymd (dt_date (utc_datetime (time_coverage_start_unix t))).
Proof.
  unfold get_times. intros H.
  destruct (mapM id l) as [ts|] eqn:Ets; [|discriminate H]. simpl in H.
  destruct (head ts) as [t0|] eqn:E0; [|discriminate H]. simpl in H.
  destruct (last ts) as [tn|] eqn:En; [|discriminate H]. simpl in H.
  injection H as <-. simpl. by rewrite <- !list_fmap_compose.
Qed.



Lemma int_list_not_missing (l : list Z) :
  (0 < length l)%nat -> forallb (fun _ : Z => false) l = false.
Proof. destruct l; simpl; [lia | done]. Qed.

Ltac lookup_kept :=
  unfold day_file; cbn [variables];
  apply map_lookup_filter_Some; split; [lookup_written|].

Section Held.
Variable parse_float : string -> option spec_float.
Variable template_variables : list string.
Variable template_attributes : gmap string string.

(** X10.  The finished file of a day has the time dimension of the number
    of rows of the day group, which is not zero, and the index dimension of
    the number of size-bin columns.  Its [time] variable holds the
    timestamps of the rows, in the order of the rows, and each of
    [day_of_year], [year], [month], [day], [hour], [minute] and [second] has
    one entry per row. *)
Theorem time_variables_follow_the_rows (df : frame) (loc : string)
    (metadata : list (string * string)) (d : option date) (fs fs' : files) :
  process_day parse_float template_variables template_attributes
              df loc metadata d fs = (fs', Ok tt) ->
  exists day f ts,
    d = Some day
    /\ fs' !! file_name loc "kiva-2-lab" (strftime_Ymd day) = Some f
    /\ (0 < length (rows (select_day df d)))%nat
    /\ dimensions f = [("time", length (rows (select_day df d)));
                       ("index", length (bin_columns df))]
    /\ variables f !! "time" = Some (Some (Epoch1d ts))
    /\ time <$> rows (select_day df d) = Some <$> ts
    /\ forall v, v ∈ ["day_of_year"; "year"; "month"; "day"; "hour"; "minute";
                      "second"] ->
         exists l, variables f !! v = Some (Some (Int1d l))
                   /\ length l = length (rows (select_day df d)).
Proof.
  intros H.
  apply day_run in H as (day & t & lower & upper & Hd & _ & _ & ->).
  pose proof (day_date _ _ _ _ _ _ _ Hd) as E.
  destruct (day_rows _ _ _ _ _ _ _ Hd) as [Hlen Hpos].
  pose proof (day_times _ _ _ _ _ _ _ Hd) as Ht.
  pose proof (get_times_fields _ _ Ht) as (E1 & E2 & E3 & E4 & E5 & E6 & E7 & _).
  apply get_times_Some in Ht as (Hts & _ & _ & _).
  exists day. eexists. exists (unix_times t).
  split; [done|]. split; [apply lookup_insert_eq|]. split; [done|].
  split. { unfold day_file, day_dimensions, columns. cbn [dimensions].
           rewrite Hlen. cbn [length bin_columns select_day].
           do 3 f_equal. lia. }
  split. { lookup_kept. simpl. apply int_list_not_missing. lia. }
  split; [done|].
  intros v Hv.
  repeat (apply elem_of_cons in Hv as [->|Hv];
          [eexists; split;
           [lookup_kept; simpl; apply int_list_not_missing;
            rewrite ?E1, ?E2, ?E3, ?E4, ?E5, ?E6, ?E7, length_fmap; lia
           | rewrite ?E1, ?E2, ?E3, ?E4, ?E5, ?E6, ?E7, length_fmap; lia]|]).
  inversion Hv.
Qed.


End Held.


(** ** Attributes and the metadata *)

Lemma merged_app (md1 md2 : list (string * string)) (a : gmap string string) :
  merged (md1 ++ md2) a = merged md2 (merged md1 a).
Proof. unfold merged. apply foldl_app. Qed.

Lemma merged_lookup_last (md1 md2 : list (string * string)) (k v : string)
    (a : gmap string string) :
  k ∉ (fst <$> md2) -> merged (md1 ++ (k, v) :: md2) a !! k = Some v.
Proof.
  intros Hk. rewrite merged_app.
  change (merged ((k, v) :: md2) (merged md1 a))
    with (merged md2 (<[k := v]> (merged md1 a))).
  rewrite merged_lookup_other by done. apply lookup_insert_eq.
Qed.

Section Merged.
Variable parse_float : string -> option spec_float.
Variable template_variables : list string.
Variable template_attributes : gmap string string.

(** X12.  The metadata is merged after [main] has set its own attributes
    and before the four are deleted.  So in the finished file an attribute
    named by the metadata has the value of the last pair of that name, also
    when it is [geospatial_bounds], [time_coverage_start] or
    [time_coverage_end]; one of the four deleted names is absent even when
    the metadata gave it; and an attribute that neither [main] nor the
    metadata names is as the template has it. *)
Theorem metadata_is_merged_last (df : frame) (loc : string)
    (metadata : list (string * string)) (d : option date) (fs fs' : files) :
  process_day parse_float template_variables template_attributes
              df loc metadata d fs = (fs', Ok tt) ->
  exists day f,
    d = Some day
    /\ fs' !! file_name loc "kiva-2-lab" (strftime_Ymd day) = Some f
    /\ (forall md1 k v md2,
          metadata = md1 ++ (k, v) :: md2 -> k ∉ (fst <$> md2) ->
          attributes f !! k = if decide (k ∈ attrs_to_delete) then None else Some v)
    /\ (forall k,
          k ∉ (fst <$> metadata) -> k ∉ attrs_to_delete ->
          k ∉ ["geospatial_bounds"; "time_coverage_start"; "time_coverage_end"] ->
          attributes f !! k = template_attributes !! k).
Proof.
  intros H.
  apply day_run in H as (day & t & lower & upper & Hd & _ & _ & ->).
  pose proof (day_date _ _ _ _ _ _ _ Hd) as E.
  exists day. eexists. split; [done|]. split; [apply lookup_insert_eq|].
  unfold day_file, merged_attributes. cbn [attributes]. split.
  - intros md1 k v md2 -> Hk.
    destruct (decide (k ∈ attrs_to_delete)) as [Hin|Hout].
    + by apply without_unneeded_lookup.
    + rewrite without_unneeded_lookup_other by done.
      by apply merged_lookup_last.
  - intros k Hmd Hdel Hset.
    rewrite without_unneeded_lookup_other, merged_lookup_other by done.
    rewrite !not_elem_of_cons in Hset. destruct Hset as (? & ? & ? & _).
    by rewrite !lookup_insert_ne.
Qed.

(** X13.  A size-bin header that does not read as a float is found only
    after the day's file is made and the concentration is written: the day
    raises and leaves the file under its first name, open, with that one
    variable written, the bounds and the times unwritten, and the
    attributes of the template. *)
Theorem bad_header_leaves_a_started_file (df : frame) (loc : string)
    (metadata : list (string * string)) (day : date) (t : times) (h : string)
    (fs : files) :
  get_times (time <$> rows (select_day df (Some day))) = Some t ->
  "ambient_aerosol_number_per_channel" ∈ template_variables ->
  h ∈ bin_columns df ->
  parse_float h = None ->
  process_day parse_float template_variables template_attributes
              df loc metadata (Some day) fs
  = (<[file_name loc "mobile" (strftime_Ymd day) :=
         NcFile [("time", length (rows (select_day df (Some day))));
                 ("index", length (bin_columns df))]
                (<["ambient_aerosol_number_per_channel" :=
                     Some (Float2d (concentration (select_day df (Some day))))]>
                   (declared_variables template_variables))
                template_attributes true]> fs,
     Raise ValueError).
Proof.
  intros Ht Hdecl Hh Hparse.
  assert (Hlen : length (unix_times t) = length (rows (select_day df (Some day)))).
  { apply get_times_Some in Ht as (_ & Hlen & _). by rewrite length_fmap in Hlen. }
  assert (Hlow : lower_limits parse_float (select_day df (Some day))
                   (length (unix_times t)) = None).
  { unfold lower_limits, columns. simpl. rewrite drop_0. unfold astype_float.
    rewrite (mapM_None_2 parse_float (bin_columns df)); [done|].
    apply Exists_exists. by exists h. }
  unfold process_day. cbv beta delta [mbind cmd_bind].
  rewrite Ht, or_raise_Some. cbv beta iota zeta.
  change (strftime_date (Some day)) with (Some (strftime_Ymd day)).
  rewrite or_raise_Some. cbv beta iota zeta delta [create_netcdf].
  rewrite update_variable_step.
  rewrite (declared_variables_lookup _ _ Hdecl). cbv beta iota.
  rewrite Hlow, Hlen. unfold columns. simpl.
  by rewrite Nat.sub_0_r.
Qed.

End Merged.


(** ** Days and seconds *)

Lemma days_from_civil_from_days (z : Z) :
  days_from_civil (civil_from_days z) = z.
Proof.
  unfold days_from_civil, civil_from_days. cbn [year month day].
  set (doe := (z + 719468) mod 146097).
  set (era := (z + 719468) / 146097).
  assert (Hz : z = era * 146097 + doe - 719468)
    by (subst era doe; Z.div_mod_to_equations; lia).
  assert (Hdoe : 0 <= doe <= 146096)
    by (subst doe; Z.div_mod_to_equations; lia).
  clearbody doe era.
  set (yoe := (doe - doe / 1460 + doe / 36524 - doe / 146096) / 365).
  set (doy := doe - (365 * yoe + yoe / 4 - yoe / 100)).
  set (mp := (5 * doy + 2) / 153).
  assert (H : 0 <= yoe <= 399
              /\ (153 * mp + 2) / 5 + (doy - (153 * mp + 2) / 5 + 1) - 1 = doy
              /\ yoe * 365 + yoe / 4 - yoe / 100 + doy = doe
              /\ 0 <= mp <= 11)
    by (subst mp doy yoe; Z.div_mod_to_equations; lia).
  destruct H as (Hyoe & Hdoy & Hdoe' & Hmp).
  clearbody mp. clearbody doy. clearbody yoe.
  assert (Hy : (if (if mp <? 10 then mp + 3 else mp - 9) <=? 2
                then (if (if mp <? 10 then mp + 3 else mp - 9) <=? 2
                      then yoe + era * 400 + 1 else yoe + era * 400) - 1
                else (if (if mp <? 10 then mp + 3 else mp - 9) <=? 2
                      then yoe + era * 400 + 1 else yoe + era * 400))
               = yoe + era * 400).
  { destruct (Z.ltb_spec mp 10);
      repeat match goal with
             | |- context [?a <=? ?b] => destruct (Z.leb_spec a b)
             end; lia. }
  rewrite Hy.
  assert (Hm : (if (if mp <? 10 then mp + 3 else mp - 9) <=? 2
                then (if mp <? 10 then mp + 3 else mp - 9) + 9
                else (if mp <? 10 then mp + 3 else mp - 9) - 3) = mp).
  { destruct (Z.ltb_spec mp 10);
      repeat match goal with
             | |- context [?a <=? ?b] => destruct (Z.leb_spec a b)
             end; lia. }
  rewrite Hm, Hdoy.
  replace ((yoe + era * 400) / 400) with era
    by (Z.div_mod_to_equations; lia).
  replace ((yoe + era * 400) mod 400) with yoe
    by (Z.div_mod_to_equations; lia).
  lia.
Qed.

Lemma unix_day (t : Z) : unix_seconds t / seconds_per_day = t / us_per_day.
Proof.
  unfold unix_seconds, us_per_second, seconds_per_day, us_per_day.
  rewrite Z.div_div by lia. reflexivity.
Qed.

Lemma dt_date_utc_datetime (t : Z) :
  dt_date (utc_datetime t) = civil_from_days (t / us_per_day).
Proof. unfold utc_datetime. cbn [dt_date]. by rewrite unix_day. Qed.

(** X14.  Two timestamps are of the same date, and so their rows of the
    same day group, exactly when they lie between the same two midnights
    UTC: the date is the count of whole days since the epoch and nothing
    else of the timestamp. *)
Theorem same_date_iff_same_day (t1 t2 : Z) :
  date_of (Some t1) = date_of (Some t2) <-> t1 / us_per_day = t2 / us_per_day.
Proof.
  change (date_of (Some t1)) with (Some (dt_date (utc_datetime t1))).
  change (date_of (Some t2)) with (Some (dt_date (utc_datetime t2))).
  rewrite !dt_date_utc_datetime. split.
  - intros H. apply (f_equal (fun o => days_from_civil <$> o)) in H.
    cbn [fmap option_fmap option_map] in H.
    rewrite !days_from_civil_from_days in H. by injection H.
  - by intros ->.
Qed.

Lemma time_of_day_inj (s1 s2 : Z) :
  0 <= s1 < 86400 -> 0 <= s2 < 86400 ->
  s1 / 3600 = s2 / 3600 -> s1 mod 3600 / 60 = s2 mod 3600 / 60 ->
  s1 mod 60 = s2 mod 60 -> s1 = s2.
Proof. intros. Z.div_mod_to_equations. lia. Qed.

Lemma String_tail_inj (c : ascii) (s s' : string) :
  String c s = String c s' -> s = s'.
Proof. by intros [= ->]. Qed.

Lemma strftime_iso_inj (x1 x2 : datetime) :
  valid_date (dt_date x1) -> valid_date (dt_date x2) ->
  0 <= hour x1 <= 23 -> 0 <= hour x2 <= 23 ->
  0 <= minute x1 <= 59 -> 0 <= minute x2 <= 59 ->
  0 <= second x1 <= 59 -> 0 <= second x2 <= 59 ->
  strftime_iso x1 = strftime_iso x2 ->
  dt_date x1 = dt_date x2 /\ hour x1 = hour x2
  /\ minute x1 = minute x2 /\ second x1 = second x2.
Proof.
  destruct x1 as [[y1 m1 d1] h1 n1 s1 u1], x2 as [[y2 m2 d2] h2 n2 s2 u2].
  unfold valid_date, strftime_iso. cbn [dt_date year month day hour minute second].
  intros (Hy1 & Hm1 & Hd1) (Hy2 & Hm2 & Hd2) Hh1 Hh2 Hn1 Hn2 Hs1 Hs2 H.
  apply pad4_inj in H as [-> H]; [|lia..]. apply String_tail_inj in H.
  apply pad2_inj in H as [-> H]; [|lia..]. apply String_tail_inj in H.
  apply pad2_inj in H as [-> H]; [|lia..]. apply String_tail_inj in H.
  apply pad2_inj in H as [-> H]; [|lia..]. apply String_tail_inj in H.
  apply pad2_inj in H as [-> H]; [|lia..]. apply String_tail_inj in H.
  apply pad2_inj in H as [-> _]; [|lia..]. done.
Qed.

(** X15.  The coverage attributes are exact to the second and no further:
    two timestamps that pandas can hold are rendered alike exactly when they
    lie in the same second. *)
Theorem strftime_iso_to_the_second (t1 t2 : Z) :
  timestamp_in_range t1 -> timestamp_in_range t2 ->
  strftime_iso (utc_datetime t1) = strftime_iso (utc_datetime t2)
  <-> t1 / us_per_second = t2 / us_per_second.
Proof.
  intros H1 H2. split.
  - intros H.
    destruct (utc_datetime_valid t1 H1) as (Hv1 & Hh1 & Hn1 & Hs1).
    destruct (utc_datetime_valid t2 H2) as (Hv2 & Hh2 & Hn2 & Hs2).
    apply strftime_iso_inj in H as (Edate & Eh & En & Es); try done.
    rewrite !dt_date_utc_datetime, <- !unix_day in Edate.
    apply (f_equal days_from_civil) in Edate.
    rewrite !days_from_civil_from_days in Edate.
    unfold utc_datetime in Eh, En, Es. cbn [hour minute second] in Eh, En, Es.
    fold (unix_seconds t1). fold (unix_seconds t2).
    assert (Esod : unix_seconds t1 mod seconds_per_day
                   = unix_seconds t2 mod seconds_per_day).
    { apply time_of_day_inj; try done;
        unfold seconds_per_day; apply Z.mod_pos_bound; lia. }
    rewrite (Z.div_mod (unix_seconds t1) seconds_per_day) by done.
    rewrite (Z.div_mod (unix_seconds t2) seconds_per_day) by done.
    by rewrite Edate, Esod.
  - intros E. unfold utc_datetime, unix_seconds. by rewrite E.
Qed.

(** ** Rows and files *)

Section Conserved.
Variable parse_float : string -> option spec_float.
Variable template_variables : list string.
Variable template_attributes : gmap string string.

Lemma day_file_time (df : frame) (d : option date) (day : date) (t : times)
    (lower upper : list (list spec_float)) (metadata : list (string * string)) :
  day_data parse_float df d day t lower upper ->
  variables (day_file template_variables template_attributes
               (select_day df d) t lower upper metadata) !! "time"
  = Some (Some (Epoch1d (unix_times t))).
Proof.
  intros Hd. destruct (day_rows _ _ _ _ _ _ _ Hd) as [Hlen Hpos].
  lookup_kept. simpl. apply int_list_not_missing. lia.
Qed.

Lemma final_names_NoDup (df : frame) (loc : string) (days : list date) :
  NoDup days ->
  (forall day, day ∈ days -> valid_date day) ->
  NoDup (final_name loc <$> days).
Proof.
  intros Hnd Hvalid. apply NoDup_fmap_2_strong; [|done].
  intros d1 d2 H1 H2 E. apply strftime_Ymd_inj; [by apply Hvalid..|].
  eapply file_name_label; [|exact E]. by rewrite !strftime_Ymd_length.
Qed.

Lemma for_each_day_files (df : frame) (loc : string)
    (metadata : list (string * string)) (days : list date) (fs fs' : files) :
  for_each (Some <$> days)
    (process_day parse_float template_variables template_attributes
       df loc metadata) fs = (fs', Ok tt) ->
  NoDup (final_name loc <$> days) ->
  forall day, day ∈ days ->
    exists t lower upper,
      day_data parse_float df (Some day) day t lower upper
      /\ fs' !! final_name loc day
         = Some (day_file template_variables template_attributes
                   (select_day df (Some day)) t lower upper metadata).
Proof.
  revert fs. induction days as [|a days IH]; intros fs H Hnd day Hday.
  - inversion Hday.
  - rewrite fmap_cons in H. rewrite fmap_cons in Hnd. simpl in H.
    apply bind_Ok in H as (fs1 & [] & Hd & H).
    apply NoDup_cons in Hnd as [Hfresh Hnd].
    apply elem_of_cons in Hday as [->|Hday]; [|by eapply IH].
    apply process_day_Ok in Hd as (a' & t & lower & upper & Hdd & _ & ->).
    pose proof (day_date _ _ _ _ _ _ _ Hdd) as [= <-].
    exists t, lower, upper. split; [done|].
    apply for_each_day_Ok in H as (days' & Hds & Hdom & Hfiles).
    apply (inj (fmap Some)) in Hds as <-.
    fold (final_name loc a) in Hdom, Hfiles |- *.
    assert (Hin : final_name loc a ∈ dom fs').
    { rewrite Hdom, dom_insert_L. apply elem_of_union_l, elem_of_difference.
      split; [set_solver|].
      rewrite elem_of_list_to_set, list_elem_of_fmap.
      intros (day' & E & _). symmetry in E. by apply file_name_platform in E. }
    apply elem_of_dom in Hin as [f Hf]. rewrite Hf.
    destruct (Hfiles _ _ Hf) as [Hold|(day' & _ & _ & _ & Hin' & E & _)].
    + rewrite lookup_insert_eq in Hold. by injection Hold as <-.
    + destruct Hfresh. rewrite E. apply list_elem_of_fmap. eauto.
Qed.

(** X16.  From the table to the files no row is lost and none is written
    twice.  In a run that goes through on a table with timestamps that
    pandas can hold, every date of the table has its finished file in the
    directory at the end, also when later days were written after it; the
    [time] variable of that file holds the timestamps of the rows of that
    date, in the order of the table; and the timestamps of all the files
    together are a rearrangement of the timestamps of the rows that survive
    the loader. *)
Theorem rows_are_conserved (input : frame) (loc : string)
    (metadata : list (string * string)) (fs fs' : files) :
  (forall r t, r ∈ rows (loader input) -> time r = Some t ->
     timestamp_in_range t) ->
  main parse_float template_variables template_attributes
       input loc metadata fs = (fs', Ok tt) ->
  exists days,
    unique (dates (loader input)) = Some <$> days
    /\ (forall day, day ∈ days ->
          exists f ts,
            fs' !! file_name loc "kiva-2-lab" (strftime_Ymd day) = Some f
            /\ variables f !! "time" = Some (Some (Epoch1d ts))
            /\ Some <$> ts
               = time <$> rows (select_day (loader input) (Some day)))
    /\ time <$> rows (loader input)
       ≡ₚ concat ((fun day =>
                     time <$> rows (select_day (loader input) (Some day)))
                    <$> days).
Proof.
  intros Hrange H. pose proof H as H'.
  apply main_Ok in H' as (days & Hds & Hnd & Hin & Htimes & _).
  exists days. split; [done|].
  unfold main in H. rewrite Hds in H.
  assert (Hnames : NoDup (final_name loc <$> days)).
  { apply (final_names_NoDup (loader input)); [done|].
    intros day Hday. apply Hin in Hday as (r & Hr & E).
    destruct (Htimes r Hr) as [t Et]. rewrite Et in E.
    eapply date_of_valid; [|exact E]. by eapply Hrange. }
  split.
  - intros day Hday.
    destruct (for_each_day_files _ _ _ _ _ _ H Hnames day Hday)
      as (t & lower & upper & Hd & Hf).
    eexists. exists (unix_times t). split; [exact Hf|].
    split; [by eapply day_file_time|].
    pose proof (day_times _ _ _ _ _ _ _ Hd) as Ht.
    by apply get_times_Some in Ht as (-> & _).
  - assert (Hperm : rows (loader input)
              ≡ₚ concat ((fun day => rows (select_day (loader input) (Some day)))
                           <$> days)).
    { apply (filter_by_key_Permutation
               (fun day => on_day (Some day))
               (fun r => default (Date 0 0 0) (date_of (time r)))); [done| |].
      - intros k r Hk Hr. rewrite on_day_true.
        destruct (Htimes r Hr) as [t Et]. rewrite Et. simpl.
        split; [by intros [_ [= <-]] | intros <-; eauto].
      - intros r Hr. apply Hin. exists r. split; [done|].
        destruct (Htimes r Hr) as [t ->]. done. }
    rewrite Hperm at 1. clear. induction days as [|a days IH]; [done|].
    simpl. by rewrite fmap_app, IH.
Qed.

End Conserved.

(** ** What the finished file keeps *)

Lemma declared_variables_unfilled (template_variables : list string)
    (n : string) (x : option value) :
  declared_variables template_variables !! n = Some x -> x = None.
Proof.
  unfold declared_variables.
  induction template_variables as [|v tv IH]; simpl.
  - by rewrite lookup_empty.
  - destruct (decide (v = n)) as [->|Hne].
    + rewrite lookup_insert_eq. by intros [= <-].
    + by rewrite lookup_insert_ne.
Qed.

Lemma position_not_missing :
  F64.is_nan latitude = false /\ F64.is_nan longitude = false.
Proof. split; reflexivity. Qed.

Section Kept.
Variable parse_float : string -> option spec_float.
Variable template_variables : list string.
Variable template_attributes : gmap string string.

(** X17.  The finished file of a day holds no variable but the thirteen that
    [main] writes: a variable that the template declares and [main] leaves
    unwritten is stripped as empty.  The position is the same in every
    file: [latitude] and [longitude] hold the two fixed numbers, and
    [geospatial_bounds] the fixed text unless the metadata names that
    attribute. *)
Theorem only_written_variables_remain (df : frame) (loc : string)
    (metadata : list (string * string)) (d : option date) (fs fs' : files) :
  process_day parse_float template_variables template_attributes
              df loc metadata d fs = (fs', Ok tt) ->
  exists day f,
    d = Some day
    /\ fs' !! file_name loc "kiva-2-lab" (strftime_Ymd day) = Some f
    /\ (forall v, is_Some (variables f !! v) -> v ∈ written_names)
    /\ variables f !! "latitude" = Some (Some (Float0d latitude))
    /\ variables f !! "longitude" = Some (Some (Float0d longitude))
    /\ ("geospatial_bounds" ∉ (fst <$> metadata) ->
        attributes f !! "geospatial_bounds" = Some "33.9913N, -107.1880E").
Proof.
  intros H.
  apply day_run in H as (day & t & lower & upper & Hd & _ & _ & ->).
  pose proof (day_date _ _ _ _ _ _ _ Hd) as E.
  exists day. eexists. split; [done|]. split; [apply lookup_insert_eq|].
  split; [|split; [|split]].
  - intros v [x Hv]. unfold day_file in Hv. cbn [variables] in Hv.
    apply map_lookup_filter_Some in Hv as [Hv Hx]. simpl in Hx.
    destruct (decide (v ∈ written_names)) as [|Hout]; [done|].
    unfold written_names in Hout. rewrite !not_elem_of_cons in Hout.
    destruct Hout as (?&?&?&?&?&?&?&?&?&?&?&?&?&_).
    unfold written_variables in Hv.
    rewrite !lookup_insert_ne in Hv by done.
    apply declared_variables_unfilled in Hv. by subst x.
  - lookup_kept. apply position_not_missing.
  - lookup_kept. apply position_not_missing.
  - intros Hmd. unfold day_file, merged_attributes. cbn [attributes].
    rewrite without_unneeded_lookup_other, merged_lookup_other by
      (done || (unfold attrs_to_delete; rewrite !not_elem_of_cons;
                repeat split; (done || apply not_elem_of_nil))).
    rewrite !lookup_insert_ne by done. apply lookup_insert_eq.
Qed.

End Kept.

(** ** The further properties on the example *)

Lemma input_goes_through :
  main decimal_float Example.template_variables Example.template_attributes
       Example.input "out" Example.metadata ∅
  = (run_files, Ok tt).
Proof. reflexivity. Qed.


Lemma input_in_range (r : row) (t : Z) :
  r ∈ rows (loader Example.input) -> time r = Some t -> timestamp_in_range t.
Proof.
  intros Hr.
  change (rows (loader Example.input))
    with [Row 0 (Some 1685577610000000) [F64.of_Z 1500; S754_nan; F64.of_Z 3];
          Row 2 (Some 1685577620000000) [F64.of_Z 7; F64.of_Z 8; F64.of_Z 9];
          Row 3 (Some 1685664000000000) [S754_nan; F64.of_Z 1; S754_nan]]
    in Hr.
  repeat (apply elem_of_cons in Hr as [->|Hr];
          [intros [= <-]; unfold timestamp_in_range; lia|]).
  inversion Hr.
Qed.

Lemma nothing_to_convert_witness :
  rows (loader blank_input) = []
  /\ main decimal_float Example.template_variables Example.template_attributes
          blank_input "out" Example.metadata ∅
     = (∅, Ok tt).
Proof.
  apply (nothing_to_convert decimal_float Example.template_variables
           Example.template_attributes blank_input "out" Example.metadata ∅).
  - discriminate.
  - intros r Hr.
    apply elem_of_cons in Hr as [->|Hr]; [reflexivity | inversion Hr].
Defined.

Lemma untimed_first_row_stops_the_run_witness :
  exists e,
    main decimal_float Example.template_variables Example.template_attributes
         Example.untimed_first "out" Example.metadata ∅
    = (∅, Raise e).
Proof.
  apply (untimed_first_row_stops_the_run decimal_float
           Example.template_variables Example.template_attributes
           Example.untimed_first "out" Example.metadata ∅
           (Row 0 None [F64.of_Z 5])
           [Row 1 (Some 1685577610000000) [F64.of_Z 7]]); reflexivity.
Defined.



Lemma day_does_not_read_the_directory_witness :
  exists f, forall fs2,
    process_day decimal_float Example.template_variables
      Example.template_attributes (loader Example.input) "out" Example.metadata
      Example.day1 fs2
    = (<[Example.day1_name := f]> (delete Example.day1_first_name fs2), Ok tt).
Proof.
  destruct (proj1 (day_does_not_read_the_directory decimal_float
                     Example.template_variables Example.template_attributes
                     (loader Example.input) "out" Example.metadata Example.day1
                     ∅ Example.day1_files))
    as (day & f & Hd & Hall).
  - exact day1_goes_through.
  - injection Hd as <-. exists f. exact Hall.
Defined.

Lemma second_run_changes_nothing_witness :
  main decimal_float Example.template_variables Example.template_attributes
       Example.input "out" Example.metadata run_files
  = (run_files, Ok tt).
Proof.
  apply (second_run_changes_nothing decimal_float Example.template_variables
           Example.template_attributes Example.input "out" Example.metadata
           ∅ run_files).
  exact input_goes_through.
Defined.

Lemma run_goes_through_iff_witness :
  (forall r, r ∈ rows (loader Example.input) -> is_Some (time r))
  /\ Forall (fun h => is_Some (decimal_float h)) (bin_columns Example.input)
  /\ written_names ⊆ Example.template_variables.
Proof.
  destruct (proj1 (run_goes_through_iff decimal_float
                     Example.template_variables Example.template_attributes
                     Example.input "out" Example.metadata ∅
                     ltac:(discriminate)))
    as [Htimes [Hnone|(Hparse & Hdecl & _)]].
  - exists run_files. exact input_goes_through.
  - discriminate Hnone.
  - split; [exact Htimes|]. split; [exact Hparse | exact Hdecl].
Defined.

Lemma time_variables_follow_the_rows_witness :
  exists f,
    Example.day1_files !! Example.day1_name = Some f
    /\ dimensions f = [("time", 2%nat); ("index", 3%nat)]
    /\ variables f !! "time"
       = Some (Some (Epoch1d [1685577610000000; 1685577620000000])).
Proof.
  destruct (time_variables_follow_the_rows decimal_float
              Example.template_variables Example.template_attributes
              (loader Example.input) "out" Example.metadata Example.day1
              ∅ Example.day1_files)
    as (day & f & ts & Hd & Hf & _ & Hdim & Htime & Hts & _).
  - exact day1_goes_through.
  - injection Hd as <-. exists f. split; [exact Hf|]. split; [exact Hdim|].
    rewrite Htime. do 3 f_equal.
    apply (inj (fmap Some)). symmetry. exact Hts.
Defined.


Lemma metadata_is_merged_last_witness :
  exists f,
    Example.day1_files !! Example.day1_name = Some f
    /\ attributes f !! "platform" = Some "kiva-2-lab"
    /\ attributes f !! "Conventions" = Some "CF-1.6, NCAS-AMF-2.0.0".
Proof.
  destruct (metadata_is_merged_last decimal_float
              Example.template_variables Example.template_attributes
              (loader Example.input) "out" Example.metadata Example.day1
              ∅ Example.day1_files)
    as (day & f & Hd & Hf & Hlast & Hother).
  - exact day1_goes_through.
  - injection Hd as <-. exists f. split; [exact Hf|]. split.
    + rewrite (Hlast [] "platform" "kiva-2-lab" [("creator_name", "A. Person")]);
        [|reflexivity|not_a_key].
      destruct (decide ("platform" ∈ attrs_to_delete)) as [Hin|_]; [|done].
      exfalso. revert Hin. unfold attrs_to_delete. not_a_key.
    + rewrite Hother; [reflexivity|unfold attrs_to_delete; not_a_key..].
Defined.

Lemma bad_header_leaves_a_started_file_witness :
  exists fs' f,
    process_day decimal_float Example.template_variables
      Example.template_attributes bad_header_input "out" Example.metadata
      (Some (Date 2023 6 1)) ∅
    = (fs', Raise ValueError)
    /\ fs' !! Example.day1_first_name = Some f
    /\ is_open f = true
    /\ variables f !! "time" = Some None.
Proof.
  eexists. eexists. split.
  - eapply (bad_header_leaves_a_started_file decimal_float
              Example.template_variables Example.template_attributes
              bad_header_input "out" Example.metadata (Date 2023 6 1) _ "x" ∅).
    + reflexivity.
    + unfold Example.template_variables. repeat first [left | right].
    + unfold bad_header_input, read_csv. cbn [bin_columns].
      repeat first [left | right].
    + reflexivity.
  - split; [apply lookup_insert_eq|]. split; reflexivity.
Defined.

Lemma strftime_iso_to_the_second_witness :
  strftime_iso (utc_datetime 1685620800123456)
  = strftime_iso (utc_datetime 1685620800999999).
Proof.
  apply (strftime_iso_to_the_second 1685620800123456 1685620800999999);
    [unfold timestamp_in_range; lia.. | reflexivity].
Defined.

Lemma rows_are_conserved_witness :
  exists days : list date,
    unique (dates (loader Example.input)) = Some <$> days
    /\ time <$> rows (loader Example.input)
       ≡ₚ concat ((fun day =>
                     time <$> rows (select_day (loader Example.input) (Some day)))
                    <$> days).
Proof.
  destruct (rows_are_conserved decimal_float Example.template_variables
              Example.template_attributes Example.input "out" Example.metadata
              ∅ run_files)
    as (days & Hds & _ & Hperm).
  - exact input_in_range.
  - exact input_goes_through.
  - exists days. split; [exact Hds | exact Hperm].
Defined.

Lemma only_written_variables_remain_witness :
  exists f,
    Example.day1_files !! Example.day1_name = Some f
    /\ variables f !! "latitude" = Some (Some (Float0d latitude))
    /\ variables f !! "qc_flag" = None
    /\ attributes f !! "geospatial_bounds" = Some "33.9913N, -107.1880E".
Proof.
  destruct (only_written_variables_remain decimal_float
              Example.template_variables Example.template_attributes
              (loader Example.input) "out" Example.metadata Example.day1
              ∅ Example.day1_files)
    as (day & f & Hd & Hf & Honly & Hlat & _ & Hbounds).
  - exact day1_goes_through.
  - injection Hd as <-. exists f. split; [exact Hf|]. split; [exact Hlat|].
    split; [|apply Hbounds; not_a_key].
    destruct (variables f !! "qc_flag") as [x|] eqn:Hq; [|done].
    exfalso. assert (Hin : "qc_flag" ∈ written_names) by (apply Honly; eauto).
    revert Hin. unfold written_names. not_a_key.
Defined.
